(** * model.py: models and database functions of the rideshare project

    A shallow embedding of [src/model.py]: the three mapped classes
    [User], [Trip] and [UserTrip] with the columns they declare, their
    [to_json] serialisers, the session operations the module uses
    ([db.session.add], [db.session.commit]) and the seeder
    [example_data].

    Rows are records typed by the column declarations (a column without
    [nullable=False] holds an [option]); a Python dictionary is a finite
    map from strings; code that touches the session runs in a small
    state-and-exception monad over the session. *)

From Stdlib Require Import ZArith String Ascii List Bool Lia.
From stdpp Require Import gmap strings list fin_maps.
From stdpp Require Import sorting.

Local Open Scope string_scope.
Local Open Scope Z_scope.

(** ** Python values *)

(** [datetime.date]: the fields of a date object. *)
Record date := mkDate { year : Z; month : Z; day : Z }.

(** The values that are bound to attributes and that end up in the
    serialised dictionaries. *)
Inductive pyval :=
| PNone
| PInt (z : Z)
| PBool (b : bool)
| PStr (s : string)
| PDate (d : date).

(** A Python dictionary with string keys. *)
Abbreviation dict := (gmap string pyval).

(** A dictionary display [{k1: v1, k2: v2, ...}]: the items are stored
    from left to right, a later item replacing an earlier one with the
    same key. *)
Definition dict_literal (items : list (string * pyval)) : dict :=
  fold_left (fun d kv => <[kv.1 := kv.2]> d) items ∅.

(** The value of a nullable column as a Python value: [None] for NULL. *)
Definition py_opt {A} (f : A -> pyval) (o : option A) : pyval :=
  match o with
  | Some a => f a
  | None => PNone
  end.

(** A scalar is [None], an integer, a boolean or a string. *)
Definition is_scalar (v : pyval) : bool :=
  match v with
  | PNone | PInt _ | PBool _ | PStr _ => true
  | PDate _ => false
  end.

(** ** Dates and [strftime] *)




Definition digit_char (n : Z) : ascii :=
  ascii_of_nat (48 + Z.to_nat (n mod 10)).

(** The decimal digits of a non-negative number, most significant first. *)
Fixpoint decimal_aux (fuel : nat) (n : Z) (acc : string) : string :=
  match fuel with
  | O => acc
  | S fuel' =>
      let acc' := String (digit_char n) acc in
      if n / 10 =? 0 then acc' else decimal_aux fuel' (n / 10) acc'
  end.

Definition decimal (n : Z) : string :=
  decimal_aux (S (Z.to_nat (Z.log2 n))) n "".

Fixpoint zeros (k : nat) : string :=
  match k with
  | O => ""
  | S k' => String "0" (zeros k')
  end.

(** A number as a decimal, zero-padded on the left to at least [width]
    characters. *)
Definition zero_pad (width : nat) (n : Z) : string :=
  let s := decimal n in
  zeros (width - String.length s) +:+ s.

(** [d.strftime('%Y-%m-%d')], with the directives as Python documents
    them: [%Y] the year with century (0001, ..., 9999), [%m] and [%d]
    the zero-padded month and day. *)
Definition strftime_Y_m_d (d : date) : string :=
  zero_pad 4 (year d) +:+ "-" +:+ zero_pad 2 (month d) +:+ "-" +:+ zero_pad 2 (day d).

Definition is_digit (c : ascii) : bool :=
  let n := nat_of_ascii c in (48 <=? n)%nat && (n <=? 57)%nat.




(** Keys in camelCase: a lower-case letter followed by letters and
    digits only (no underscore, hyphen or blank). *)
Definition is_lower (c : ascii) : bool :=
  let n := nat_of_ascii c in (97 <=? n)%nat && (n <=? 122)%nat.

Definition is_upper (c : ascii) : bool :=
  let n := nat_of_ascii c in (65 <=? n)%nat && (n <=? 90)%nat.

Definition is_alnum (c : ascii) : bool := is_lower c || is_upper c || is_digit c.

Definition is_camelCase (s : string) : bool :=
  match s with
  | EmptyString => false
  | String c rest => is_lower c && forallb is_alnum (list_ascii_of_string rest)
  end.

(** ** The mapped classes *)

(** class User, table "users". *)
Module User.
Record t := mk {
  user_id : Z;                          (* Integer, primary key *)
  email : option string;                (* String(64), nullable *)
  password : option string;             (* String(649), nullable *)
  fname : option string;                (* String(20), nullable *)
  lname : option string;                (* String(20), nullable *)
  user_gender : option string;          (* String(20), nullable *)
  user_bio : option string;             (* String(160), nullable *)
  user_profile_img : option string;     (* String(250), nullable *)
  user_social_media : option string;    (* String(3000), nullable *)
  phone_number : option Z               (* Numeric(12), nullable *)
}.
End User.

(** class Trip, table "trips". *)
Module Trip.
Record t := mk {
  trip_id : Z;                          (* Integer, primary key *)
  is_active : option bool;              (* Boolean *)
  date_of_trip : date;                  (* Date, nullable=False *)
  time : string;                        (* String, nullable=False *)
  max_passengers : Z;                   (* Integer, nullable=False *)
  num_passengers : Z;                   (* Integer, nullable=False, default=0 *)
  willing_to_stop : bool;               (* Boolean, nullable=False *)
  trip_cost : Z;                        (* Integer, nullable=False *)
  user_id : Z;                          (* ForeignKey users.user_id, nullable=False *)
  origin : string;                      (* String(64), nullable=False *)
  destination : string;                 (* String(64), nullable=False *)
  distance_meters : Z;                  (* Integer, nullable=False *)
  display_distance : string             (* String(15), nullable=False *)
}.
End Trip.

(** class UserTrip, table "user_trips". *)
Module UserTrip.
Record t := mk {
  user_trip_id : Z;                     (* Integer, primary key *)
  trip_id : Z;                          (* ForeignKey trips.trip_id, nullable=False *)
  user_id : Z                           (* ForeignKey users.user_id, nullable=False *)
}.
End UserTrip.

(** ** The database and the session *)

(** The three tables, keyed by primary key, and the sequences behind the
    autoincrement primary keys. *)
Record Store := mkStore {
  users : gmap Z User.t;
  trips : gmap Z Trip.t;
  user_trips : gmap Z UserTrip.t;
  users_seq : Z;
  trips_seq : Z;
  user_trips_seq : Z
}.

(** The classes deriving from db.Model. *)
Inductive model := MUser | MTrip | MUserTrip.

(** A freshly constructed instance [Model(k=v, ...)]: its class and the
    attributes given to the constructor. *)
Record instance := mkInstance { cls : model; kwargs : dict }.

(** [db.session]: the database it talks to and the instances added but
    not yet flushed. *)
Record Session := mkSession { store : Store; new : list instance }.

Inductive exn := AttributeError | IntegrityError | DataError.

Inductive outcome (A : Type) :=
| Return (a : A)
| Raise (e : exn).
Arguments Return {A} a.
Arguments Raise {A} e.

(** Code that uses the session: it returns or raises, and leaves a
    session behind in both cases. *)
Definition M (A : Type) : Type := Session -> outcome A * Session.

Definition ret {A} (a : A) : M A := fun s => (Return a, s).

Definition raise {A} (e : exn) : M A := fun s => (Raise e, s).

Definition bind {A B} (c : M A) (k : A -> M B) : M B :=
  fun s =>
    match c s with
    | (Return a, s') => k a s'
    | (Raise e, s') => (Raise e, s')
    end.

Definition get_session : M Session := fun s => (Return s, s).

Definition put_session (s' : Session) : M unit := fun _ => (Return tt, s').

(** [try: c  except e: h e] *)
Definition try_except {A} (c : M A) (h : exn -> M A) : M A :=
  fun s =>
    match c s with
    | (Return a, s') => (Return a, s')
    | (Raise e, s') => h e s'
    end.

Declare Scope py_scope.
Delimit Scope py_scope with py.
Notation "x <- c ;; k" := (bind c (fun x => k))
  (at level 100, c at next level, right associativity) : py_scope.
Notation "c ;;; k" := (bind c (fun _ => k))
  (at level 100, right associativity) : py_scope.
Local Open Scope py_scope.

(** Attribute access [o.attr] on what a relationship returned: on
    [None] it raises AttributeError. *)
Definition getattr {A B} (o : option A) (attr : A -> B) : M B :=
  match o with
  | Some a => ret (attr a)
  | None => raise AttributeError
  end.

(** The relationship [Trip.user]: the User row [user_id] refers to. *)
Definition Trip_user (self : Trip.t) : M (option User.t) :=
  s <- get_session ;; ret (users (store s) !! Trip.user_id self).

(** The relationship [UserTrip.trip]. *)
Definition UserTrip_trip (self : UserTrip.t) : M (option Trip.t) :=
  s <- get_session ;; ret (trips (store s) !! UserTrip.trip_id self).

(** The relationship [UserTrip.user]. *)
Definition UserTrip_user (self : UserTrip.t) : M (option User.t) :=
  s <- get_session ;; ret (users (store s) !! UserTrip.user_id self).

(** ** Serialisation *)

(** User.to_json *)
Definition User_to_json (self : User.t) : M dict :=
  ret (dict_literal
         [("user_id", PInt (User.user_id self));
          ("email", py_opt PStr (User.email self));
          ("password", py_opt PStr (User.password self));
          ("fname", py_opt PStr (User.fname self));
          ("lname", py_opt PStr (User.lname self));
          ("userGender", py_opt PStr (User.user_gender self));
          ("userBio", py_opt PStr (User.user_bio self));
          ("userProfileImg", py_opt PStr (User.user_profile_img self));
          ("userSocialMedia", py_opt PStr (User.user_social_media self))]).

(** Trip.to_json *)
Definition Trip_to_json (self : Trip.t) : M dict :=
  let datetime_str := strftime_Y_m_d (Trip.date_of_trip self) in
  user <- Trip_user self ;;
  userFirstName <- getattr user User.fname ;;
  user <- Trip_user self ;;
  userProfileImg <- getattr user User.user_profile_img ;;
  ret (dict_literal
         [("tripId", PInt (Trip.trip_id self));
          ("dateOfTrip", PStr datetime_str);
          ("maxPassengers", PInt (Trip.max_passengers self));
          ("numPassengers", PInt (Trip.num_passengers self));
          ("willingToStop", PBool (Trip.willing_to_stop self));
          ("tripCost", PInt (Trip.trip_cost self));
          ("origin", PStr (Trip.origin self));
          ("time", PStr (Trip.time self));
          ("destination", PStr (Trip.destination self));
          ("distanceMeters", PInt (Trip.distance_meters self));
          ("displayDistance", PStr (Trip.display_distance self));
          ("userAsDriver", PInt (Trip.user_id self));
          ("userFirstName", py_opt PStr userFirstName);
          ("userProfileImg", py_opt PStr userProfileImg)]).

(** [self.trip.user]: the driver of the trip a UserTrip refers to. *)
Definition UserTrip_trip_user (self : UserTrip.t) : M (option User.t) :=
  trip <- UserTrip_trip self ;;
  match trip with
  | Some t => Trip_user t
  | None => raise AttributeError
  end.

(** UserTrip.to_json *)
Definition UserTrip_to_json (self : UserTrip.t) : M dict :=
  trip <- UserTrip_trip self ;;
  date_of_trip <- getattr trip Trip.date_of_trip ;;
  let datetime_str := strftime_Y_m_d date_of_trip in
  user <- UserTrip_user self ;;
  userFirstName <- getattr user User.fname ;;
  user <- UserTrip_user self ;;
  userProfileImg <- getattr user User.user_profile_img ;;
  user <- UserTrip_user self ;;
  userBio <- getattr user User.user_bio ;;
  trip <- UserTrip_trip self ;;
  origin <- getattr trip Trip.origin ;;
  trip <- UserTrip_trip self ;;
  time <- getattr trip Trip.time ;;
  trip <- UserTrip_trip self ;;
  destination <- getattr trip Trip.destination ;;
  trip <- UserTrip_trip self ;;
  displayDistance <- getattr trip Trip.display_distance ;;
  trip <- UserTrip_trip self ;;
  distanceMeters <- getattr trip Trip.distance_meters ;;
  trip <- UserTrip_trip self ;;
  numPassengers <- getattr trip Trip.num_passengers ;;
  driver <- UserTrip_trip_user self ;;
  driverFirstName <- getattr driver User.fname ;;
  driver <- UserTrip_trip_user self ;;
  driverProfileImg <- getattr driver User.user_profile_img ;;
  driver <- UserTrip_trip_user self ;;
  driverBio <- getattr driver User.user_bio ;;
  ret (dict_literal
         [("userTripId", PInt (UserTrip.user_trip_id self));
          ("tripId", PInt (UserTrip.trip_id self));
          ("userId", PInt (UserTrip.user_id self));
          ("dateOfTrip", PStr datetime_str);
          ("userFirstName", py_opt PStr userFirstName);
          ("userProfileImg", py_opt PStr userProfileImg);
          ("userBio", py_opt PStr userBio);
          ("origin", PStr origin);
          ("time", PStr time);
          ("destination", PStr destination);
          ("displayDistance", PStr displayDistance);
          ("distanceMeters", PInt distanceMeters);
          ("numPassengers", PInt numPassengers);
          ("driverFirstName", py_opt PStr driverFirstName);
          ("driverProfileImg", py_opt PStr driverProfileImg);
          ("driverBio", py_opt PStr driverBio)]).

(** ** Persisting instances *)

(** Code of the database that fails or succeeds without touching the
    session. *)
Definition lift {A} (o : outcome A) : M A := fun s => (o, s).

(** The attribute [name] of a new instance: [None] unless the
    constructor was given it. *)
Definition attr (kw : dict) (name : string) : pyval :=
  default PNone (kw !! name).

(** The attribute of a column with a Python-side default: an attribute
    that is unset or [None] takes the default. *)
Definition attr_default (kw : dict) (name : string) (dflt : pyval) : pyval :=
  match attr kw name with
  | PNone => dflt
  | v => v
  end.

(** A NULL in a column declared nullable=False violates the constraint. *)
Definition not_null {A} (o : option A) : outcome A :=
  match o with
  | Some a => Return a
  | None => Raise IntegrityError
  end.

(** A String(n) column holds at most [n] characters. *)
Definition varchar (n : nat) (o : option string) : outcome (option string) :=
  match o with
  | Some s => if (String.length s <=? n)%nat then Return o else Raise DataError
  | None => Return None
  end.

Definition restore_tables (snapshot current : Store) : Store :=
  mkStore (users snapshot) (trips snapshot) (user_trips snapshot)
          (users_seq current) (trips_seq current) (user_trips_seq current).

(** The next value of a sequence; a sequence is not set back by a
    rollback. *)
Definition nextval_users : M Z :=
  fun s =>
    let st := store s in
    let v := users_seq st + 1 in
    (Return v,
     mkSession (mkStore (users st) (trips st) (user_trips st)
                        v (trips_seq st) (user_trips_seq st)) (new s)).

Definition nextval_trips : M Z :=
  fun s =>
    let st := store s in
    let v := trips_seq st + 1 in
    (Return v,
     mkSession (mkStore (users st) (trips st) (user_trips st)
                        (users_seq st) v (user_trips_seq st)) (new s)).

Definition nextval_user_trips : M Z :=
  fun s =>
    let st := store s in
    let v := user_trips_seq st + 1 in
    (Return v,
     mkSession (mkStore (users st) (trips st) (user_trips st)
                        (users_seq st) (trips_seq st) v) (new s)).

(** The primary key of a new row: the given one, or the next value of
    the table's sequence. *)
Definition primary_key (given : option Z) (nextval : M Z) : M Z :=
  match given with
  | Some k => ret k
  | None => nextval
  end.

(** The row a foreign key refers to has to exist. *)
Definition references {A} (table : Store -> gmap Z A) (k : Z) : M unit :=
  fun s =>
    match table (store s) !! k with
    | Some _ => (Return tt, s)
    | None => (Raise IntegrityError, s)
    end.

(** Storing a row under its primary key, which has to be unused. *)
Definition add_user_row (u : User.t) : M unit :=
  fun s =>
    let st := store s in
    match users st !! User.user_id u with
    | Some _ => (Raise IntegrityError, s)
    | None =>
        (Return tt,
         mkSession (mkStore (<[User.user_id u := u]> (users st)) (trips st)
                            (user_trips st) (users_seq st) (trips_seq st)
                            (user_trips_seq st)) (new s))
    end.

Definition add_trip_row (t : Trip.t) : M unit :=
  fun s =>
    let st := store s in
    match trips st !! Trip.trip_id t with
    | Some _ => (Raise IntegrityError, s)
    | None =>
        (Return tt,
         mkSession (mkStore (users st) (<[Trip.trip_id t := t]> (trips st))
                            (user_trips st) (users_seq st) (trips_seq st)
                            (user_trips_seq st)) (new s))
    end.

Definition add_user_trip_row (ut : UserTrip.t) : M unit :=
  fun s =>
    let st := store s in
    match user_trips st !! UserTrip.user_trip_id ut with
    | Some _ => (Raise IntegrityError, s)
    | None =>
        (Return tt,
         mkSession (mkStore (users st) (trips st)
                            (<[UserTrip.user_trip_id ut := ut]> (user_trips st))
                            (users_seq st) (trips_seq st)
                            (user_trips_seq st)) (new s))
    end.

Fixpoint for_each {A} (f : A -> M unit) (l : list A) : M unit :=
  match l with
  | [] => ret tt
  | x :: l' => f x ;;; for_each f l'
  end.

Definition is_instance (c : model) (o : instance) : bool :=
  match c, cls o with
  | MUser, MUser | MTrip, MTrip | MUserTrip, MUserTrip => true
  | _, _ => false
  end.

(** db.session.add *)
Definition session_add (o : instance) : M unit :=
  s <- get_session ;; put_session (mkSession (store s) (new s ++ [o])).

Section Database.

(** What the database driver and the server make of a Python value
    bound to a column of a given type (a text such as "3" for an
    Integer column, "11-13-2018" for a Date column); [None] when the
    value is rejected. This conversion is not part of model.py. *)
Variable adapt_integer : pyval -> option Z.
Variable adapt_string : pyval -> option string.
Variable adapt_boolean : pyval -> option bool.
Variable adapt_date : pyval -> option date.
Variable adapt_numeric : pyval -> option Z.

(** bcrypt.hashpw password salt *)
Variable hashpw : string -> string -> string.

(** Binding a Python value to a column: [None] is NULL, a value the
    column type rejects is a DataError. *)
Definition bind_param {A} (adapt : pyval -> option A) (v : pyval)
  : outcome (option A) :=
  match v with
  | PNone => Return None
  | _ => match adapt v with
         | Some a => Return (Some a)
         | None => Raise DataError
         end
  end.

Definition bind_varchar (n : nat) (v : pyval) : outcome (option string) :=
  match bind_param adapt_string v with
  | Return o => varchar n o
  | Raise e => Raise e
  end.

(** INSERT INTO users *)
Definition insert_user (kw : dict) : M unit :=
  user_id <- lift (bind_param adapt_integer (attr kw "user_id")) ;;
  email <- lift (bind_varchar 64 (attr kw "email")) ;;
  password <- lift (bind_varchar 649 (attr kw "password")) ;;
  fname <- lift (bind_varchar 20 (attr kw "fname")) ;;
  lname <- lift (bind_varchar 20 (attr kw "lname")) ;;
  user_gender <- lift (bind_varchar 20 (attr kw "user_gender")) ;;
  user_bio <- lift (bind_varchar 160 (attr kw "user_bio")) ;;
  user_profile_img <- lift (bind_varchar 250 (attr kw "user_profile_img")) ;;
  user_social_media <- lift (bind_varchar 3000 (attr kw "user_social_media")) ;;
  phone_number <- lift (bind_param adapt_numeric (attr kw "phone_number")) ;;
  user_id <- primary_key user_id nextval_users ;;
  add_user_row (User.mk user_id email password fname lname user_gender
                        user_bio user_profile_img user_social_media
                        phone_number).

(** INSERT INTO trips *)
Definition insert_trip (kw : dict) : M unit :=
  trip_id <- lift (bind_param adapt_integer (attr kw "trip_id")) ;;
  is_active <- lift (bind_param adapt_boolean (attr kw "is_active")) ;;
  date_of_trip <- lift (bind_param adapt_date (attr kw "date_of_trip")) ;;
  time <- lift (bind_param adapt_string (attr kw "time")) ;;
  max_passengers <- lift (bind_param adapt_integer (attr kw "max_passengers")) ;;
  num_passengers <-
    lift (bind_param adapt_integer (attr_default kw "num_passengers" (PInt 0))) ;;
  willing_to_stop <- lift (bind_param adapt_boolean (attr kw "willing_to_stop")) ;;
  trip_cost <- lift (bind_param adapt_integer (attr kw "trip_cost")) ;;
  user_id <- lift (bind_param adapt_integer (attr kw "user_id")) ;;
  origin <- lift (bind_varchar 64 (attr kw "origin")) ;;
  destination <- lift (bind_varchar 64 (attr kw "destination")) ;;
  distance_meters <- lift (bind_param adapt_integer (attr kw "distance_meters")) ;;
  display_distance <- lift (bind_varchar 15 (attr kw "display_distance")) ;;
  trip_id <- primary_key trip_id nextval_trips ;;
  date_of_trip <- lift (not_null date_of_trip) ;;
  time <- lift (not_null time) ;;
  max_passengers <- lift (not_null max_passengers) ;;
  num_passengers <- lift (not_null num_passengers) ;;
  willing_to_stop <- lift (not_null willing_to_stop) ;;
  trip_cost <- lift (not_null trip_cost) ;;
  user_id <- lift (not_null user_id) ;;
  origin <- lift (not_null origin) ;;
  destination <- lift (not_null destination) ;;
  distance_meters <- lift (not_null distance_meters) ;;
  display_distance <- lift (not_null display_distance) ;;
  add_trip_row (Trip.mk trip_id is_active date_of_trip time max_passengers
                        num_passengers willing_to_stop trip_cost user_id
                        origin destination distance_meters
                        display_distance) ;;;
  references users user_id.

(** INSERT INTO user_trips *)
Definition insert_user_trip (kw : dict) : M unit :=
  user_trip_id <- lift (bind_param adapt_integer (attr kw "user_trip_id")) ;;
  trip_id <- lift (bind_param adapt_integer (attr kw "trip_id")) ;;
  user_id <- lift (bind_param adapt_integer (attr kw "user_id")) ;;
  user_trip_id <- primary_key user_trip_id nextval_user_trips ;;
  trip_id <- lift (not_null trip_id) ;;
  user_id <- lift (not_null user_id) ;;
  add_user_trip_row (UserTrip.mk user_trip_id trip_id user_id) ;;;
  references trips trip_id ;;;
  references users user_id.

Definition insert (o : instance) : M unit :=
  match cls o with
  | MUser => insert_user (kwargs o)
  | MTrip => insert_trip (kwargs o)
  | MUserTrip => insert_user_trip (kwargs o)
  end.

(** The flush of the session: the new instances are inserted, the
    tables in the order of their foreign keys (users, trips,
    user_trips) and the instances of one table in the order they were
    added. *)
Definition session_flush : M unit :=
  s <- get_session ;;
  let objs := new s in
  for_each insert (List.filter (is_instance MUser) objs ++
                   List.filter (is_instance MTrip) objs ++
                   List.filter (is_instance MUserTrip) objs) ;;;
  s <- get_session ;;
  put_session (mkSession (store s) []).

(** The rollback of the transaction: the tables are as they were when
    it began and the new instances are expunged. *)
Definition session_rollback (snapshot : Store) : M unit :=
  s <- get_session ;;
  put_session (mkSession (restore_tables snapshot (store s)) []).

(** db.session.commit: the flush, made permanent; when the flush
    raises, the transaction is rolled back and the exception goes on
    to the caller. *)
Definition session_commit : M unit :=
  s0 <- get_session ;;
  try_except session_flush
             (fun e => session_rollback (store s0) ;;; raise e).

(** example_data; [salt] is what bcrypt.gensalt() returned. *)
Definition example_data (salt : string) : M unit :=
  let b := "fakepw" in
  let hashed_pw := hashpw b salt in
  let user :=
    mkInstance MUser
      (dict_literal
         [("fname", PStr "Jo");
          ("lname", PStr "Bama");
          ("email", PStr "jo@bama.com");
          ("user_bio", PStr "Friendly person");
          ("user_gender", PStr "Female");
          ("password", PStr hashed_pw);
          ("user_profile_img",
           PStr "https://robohash.org/enimsolutaqui.png?size=50x50&set=set1");
          ("user_social_media", PStr "twitter.com")]) in
  session_add user ;;;
  let trip :=
    mkInstance MTrip
      (dict_literal
         [("date_of_trip", PStr "11-13-2018");
          ("max_passengers", PStr "3");
          ("num_passengers", PStr "1");
          ("willing_to_stop", PBool false);
          ("trip_cost", PStr "10");
          ("user_id", PStr "1");
          ("origin", PStr "San Francisco");
          ("destination", PStr "Los Angeles");
          ("distance_meters", PStr "15422");
          ("display_distance", PStr "13 mi")]) in
  session_add trip ;;;
  session_commit.

(** Modelled from the spec: the enrolment of a passenger in a trip,
    which is done by a caller of model.py. The spec describes it as
    the creation of a UserTrip that refers to the Trip and the User: a
    UserTrip is constructed, added to the session and committed, the
    way example_data persists its instances. *)
Definition enroll (trip_id user_id : pyval) : M unit :=
  let user_trip :=
    mkInstance MUserTrip
      (dict_literal [("trip_id", trip_id); ("user_id", user_id)]) in
  session_add user_trip ;;;
  session_commit.

End Database.

(** A driver that takes a Python value of the column's own type and
    nothing else; used where a concrete database is run. *)
Definition plain_integer (v : pyval) : option Z :=
  match v with PInt z => Some z | _ => None end.
Definition plain_string (v : pyval) : option string :=
  match v with PStr s => Some s | _ => None end.
Definition plain_boolean (v : pyval) : option bool :=
  match v with PBool b => Some b | _ => None end.
Definition plain_date (v : pyval) : option date :=
  match v with PDate d => Some d | _ => None end.

Definition empty_store : Store := mkStore ∅ ∅ ∅ 0 0 0.
Definition empty_session : Session := mkSession empty_store [].

(** ** Sample rows *)

Definition jo : User.t :=
  User.mk 1 (Some "jo@bama.com") (Some "$2b$12$KIXQJ") (Some "Jo") (Some "Bama")
          (Some "Female") (Some "Friendly person")
          (Some "https://robohash.org/enimsolutaqui.png?size=50x50&set=set1")
          (Some "twitter.com") None.

Definition al : User.t :=
  User.mk 2 (Some "al@bama.com") None (Some "Al") None None (Some "Quiet")
          (Some "https://robohash.org/al.png") None (Some 4155550100).

Definition bo : User.t :=
  User.mk 3 (Some "bo@bama.com") None (Some "Bo") None None None None None None.

Definition trip_sf_la : Trip.t :=
  Trip.mk 1 (Some true) (mkDate 2018 11 13) "10:00" 3 1 false 10 1
          "San Francisco" "Los Angeles" 15422 "13 mi".

Definition al_joins : UserTrip.t := UserTrip.mk 1 1 2.

Definition sample_store : Store :=
  mkStore (<[3 := bo]> (<[2 := al]> (<[1 := jo]> ∅))) (<[1 := trip_sf_la]> ∅)
          (<[1 := al_joins]> ∅) 3 1 1.

Definition sample_session : Session := mkSession sample_store [].

(** The keys of the three serialised mappings, in the order of the
    dictionary displays. *)
Definition User_keys : list string :=
  ["user_id"; "email"; "password"; "fname"; "lname"; "userGender"; "userBio";
   "userProfileImg"; "userSocialMedia"].

Definition Trip_keys : list string :=
  ["tripId"; "dateOfTrip"; "maxPassengers"; "numPassengers"; "willingToStop";
   "tripCost"; "origin"; "time"; "destination"; "distanceMeters";
   "displayDistance"; "userAsDriver"; "userFirstName"; "userProfileImg"].

Definition UserTrip_keys : list string :=
  ["userTripId"; "tripId"; "userId"; "dateOfTrip"; "userFirstName";
   "userProfileImg"; "userBio"; "origin"; "time"; "destination";
   "displayDistance"; "distanceMeters"; "numPassengers"; "driverFirstName";
   "driverProfileImg"; "driverBio"].

(** The same row with another value in one column. *)
Definition with_is_active (b : option bool) (t : Trip.t) : Trip.t :=
  Trip.mk (Trip.trip_id t) b (Trip.date_of_trip t) (Trip.time t)
          (Trip.max_passengers t) (Trip.num_passengers t)
          (Trip.willing_to_stop t) (Trip.trip_cost t) (Trip.user_id t)
          (Trip.origin t) (Trip.destination t) (Trip.distance_meters t)
          (Trip.display_distance t).

Definition with_phone_number (p : option Z) (u : User.t) : User.t :=
  User.mk (User.user_id u) (User.email u) (User.password u) (User.fname u)
          (User.lname u) (User.user_gender u) (User.user_bio u)
          (User.user_profile_img u) (User.user_social_media u) p.



(** The columns the serialisers read: of the entity itself and of the
    rows its relationships load. *)
Definition User_read (u : User.t) :=
  (User.user_id u, User.email u, User.password u, User.fname u, User.lname u,
   User.user_gender u, User.user_bio u, User.user_profile_img u,
   User.user_social_media u).

Definition Trip_read (t : Trip.t) :=
  (Trip.trip_id t, Trip.date_of_trip t, Trip.max_passengers t,
   Trip.num_passengers t, Trip.willing_to_stop t, Trip.trip_cost t,
   Trip.origin t, Trip.time t, Trip.destination t, Trip.distance_meters t,
   Trip.display_distance t, Trip.user_id t).

Definition Trip_read_of_user (u : User.t) :=
  (User.fname u, User.user_profile_img u).

Definition UserTrip_read (ut : UserTrip.t) :=
  (UserTrip.user_trip_id ut, UserTrip.trip_id ut, UserTrip.user_id ut).

Definition UserTrip_read_of_trip (t : Trip.t) :=
  (Trip.date_of_trip t, Trip.origin t, Trip.time t, Trip.destination t,
   Trip.display_distance t, Trip.distance_meters t, Trip.num_passengers t).

Definition UserTrip_read_of_user (u : User.t) :=
  (User.fname u, User.user_profile_img u, User.user_bio u).

(** The rows the relationships of a UserTrip load. *)
Definition passenger_of (s : Session) (ut : UserTrip.t) : option User.t :=
  users (store s) !! UserTrip.user_id ut.

Definition trip_of (s : Session) (ut : UserTrip.t) : option Trip.t :=
  trips (store s) !! UserTrip.trip_id ut.

Definition driver_of (s : Session) (ut : UserTrip.t) : option User.t :=
  match trip_of s ut with
  | Some t => users (store s) !! Trip.user_id t
  | None => None
  end.

(** A computation that raises from every session. *)
Definition raises {A} (c : M A) : Prop :=
  forall s, exists e s', c s = (Raise e, s').

(** Every row of the three tables in [s] is a row in [s']; a
    computation that keeps the rows. *)
Definition rows_kept (s s' : Session) : Prop :=
  users (store s) ⊆ users (store s') /\
  trips (store s) ⊆ trips (store s') /\
  user_trips (store s) ⊆ user_trips (store s').

Definition keeps {A} (c : M A) : Prop :=
  forall s, rows_kept s (snd (c s)).

(** ** Definitions for the further properties *)

(** The keys a serialised UserTrip takes over from its Trip. *)
Definition UserTrip_keys_of_trip : list string :=
  ["dateOfTrip"; "origin"; "time"; "destination"; "displayDistance";
   "distanceMeters"; "numPassengers"].


(** Every row is stored under its own primary key. *)
Definition primary_keys_hold (st : Store) : Prop :=
  map_Forall (fun k u => User.user_id u = k) (users st) /\
  map_Forall (fun k t => Trip.trip_id t = k) (trips st) /\
  map_Forall (fun k ut => UserTrip.user_trip_id ut = k) (user_trips st).

(** The three foreign keys: trips.user_id, user_trips.trip_id and
    user_trips.user_id refer to rows that exist. *)
Definition foreign_keys_hold (st : Store) : Prop :=
  map_Forall (fun _ t => is_Some (users st !! Trip.user_id t)) (trips st) /\
  map_Forall (fun _ ut => is_Some (trips st !! UserTrip.trip_id ut) /\
                          is_Some (users st !! UserTrip.user_id ut))
             (user_trips st).

Definition consistent (st : Store) : Prop :=
  primary_keys_hold st /\ foreign_keys_hold st.

(** [c], started on a consistent database, returns only on a consistent
    database. *)
Definition stays_consistent {A} (c : M A) : Prop :=
  forall s a s', consistent (store s) -> c s = (Return a, s') ->
                 consistent (store s').

(** The columns of Trip that are declared nullable=False and have no
    default. *)
Definition Trip_required_columns : list string :=
  ["date_of_trip"; "time"; "max_passengers"; "willing_to_stop"; "trip_cost";
   "user_id"; "origin"; "destination"; "distance_meters"; "display_distance"].

(** The sessions that [db.session.add] and [db.session.commit] lead to
    from the empty database. *)
Inductive reachable
          (adapt_integer : pyval -> option Z) (adapt_string : pyval -> option string)
          (adapt_boolean : pyval -> option bool) (adapt_date : pyval -> option date)
          (adapt_numeric : pyval -> option Z) : Session -> Prop :=
| reachable_empty :
    reachable adapt_integer adapt_string adapt_boolean adapt_date adapt_numeric
              empty_session
| reachable_add (s : Session) (o : instance) :
    reachable adapt_integer adapt_string adapt_boolean adapt_date adapt_numeric s ->
    reachable adapt_integer adapt_string adapt_boolean adapt_date adapt_numeric
              (snd (session_add o s))
| reachable_commit (s : Session) :
    reachable adapt_integer adapt_string adapt_boolean adapt_date adapt_numeric s ->
    reachable adapt_integer adapt_string adapt_boolean adapt_date adapt_numeric
              (snd (session_commit adapt_integer adapt_string adapt_boolean
                                   adapt_date adapt_numeric s)).




(** A driver that takes the Python values of a column's own type as
    they are. *)
Definition native_driver
           (adapt_integer : pyval -> option Z) (adapt_string : pyval -> option string)
           (adapt_boolean : pyval -> option bool) (adapt_date : pyval -> option date)
  : Prop :=
  (forall z, adapt_integer (PInt z) = Some z) /\
  (forall s, adapt_string (PStr s) = Some s) /\
  (forall b, adapt_boolean (PBool b) = Some b) /\
  (forall d, adapt_date (PDate d) = Some d).

(** The keyword arguments [Trip(is_active=..., date_of_trip=..., ...)]
    that give every column but the primary key the value it has in
    [t]. *)
Definition Trip_kwargs (t : Trip.t) : dict :=
  dict_literal
    [("is_active", py_opt PBool (Trip.is_active t));
     ("date_of_trip", PDate (Trip.date_of_trip t));
     ("time", PStr (Trip.time t));
     ("max_passengers", PInt (Trip.max_passengers t));
     ("num_passengers", PInt (Trip.num_passengers t));
     ("willing_to_stop", PBool (Trip.willing_to_stop t));
     ("trip_cost", PInt (Trip.trip_cost t));
     ("user_id", PInt (Trip.user_id t));
     ("origin", PStr (Trip.origin t));
     ("destination", PStr (Trip.destination t));
     ("distance_meters", PInt (Trip.distance_meters t));
     ("display_distance", PStr (Trip.display_distance t))].





(** The keyword arguments [UserTrip(trip_id=..., user_id=...)]. *)
Definition UserTrip_kwargs (trip_id user_id : Z) : dict :=
  dict_literal [("trip_id", PInt trip_id); ("user_id", PInt user_id)].

(** The session with one more row in the user_trips table. *)
Definition with_new_user_trip (trip_id user_id : Z) (s : Session) : Session :=
  let st := store s in
  let k := user_trips_seq st + 1 in
  mkSession (mkStore (users st) (trips st)
                     (<[k := UserTrip.mk k trip_id user_id]> (user_trips st))
                     (users_seq st) (trips_seq st) k) [].

(** The rows of a table. *)
Definition rows {A} (table : gmap Z A) : list A := (map_to_list table).*2.

(** What a backref loads: the rows of [table] whose foreign key [fk] is
    [k], in the order of [order_by]. *)
Definition ordered_by {A} (order_by : A -> Z) (a b : A) : Prop :=
  order_by a <= order_by b.

#[global] Instance ordered_by_dec {A} (order_by : A -> Z) (a b : A) :
  Decision (ordered_by order_by a b) := decide (order_by a <= order_by b).

Definition back_collection {A} (fk order_by : A -> Z) (k : Z) (table : gmap Z A)
  : list A :=
  merge_sort (ordered_by order_by) (filter (fun a => fk a = k) (rows table)).

(** The backref [User.trips], order_by trip_id. *)
Definition User_trips (self : User.t) : M (list Trip.t) :=
  s <- get_session ;;
  ret (back_collection Trip.user_id Trip.trip_id (User.user_id self)
                       (trips (store s))).

(** The backref [Trip.user_trips], order_by user_trip_id. *)
Definition Trip_user_trips (self : Trip.t) : M (list UserTrip.t) :=
  s <- get_session ;;
  ret (back_collection UserTrip.trip_id UserTrip.user_trip_id
                       (Trip.trip_id self) (user_trips (store s))).

(** The backref [User.user_trips], order_by user_trip_id. *)
Definition User_user_trips (self : User.t) : M (list UserTrip.t) :=
  s <- get_session ;;
  ret (back_collection UserTrip.user_id UserTrip.user_trip_id
                       (User.user_id self) (user_trips (store s))).

(** The keyword arguments [User(email=..., password=..., ...)] that give
    every column but the primary key the value it has in [u]. *)
Definition User_kwargs (u : User.t) : dict :=
  dict_literal
    [("email", py_opt PStr (User.email u));
     ("password", py_opt PStr (User.password u));
     ("fname", py_opt PStr (User.fname u));
     ("lname", py_opt PStr (User.lname u));
     ("user_gender", py_opt PStr (User.user_gender u));
     ("user_bio", py_opt PStr (User.user_bio u));
     ("user_profile_img", py_opt PStr (User.user_profile_img u));
     ("user_social_media", py_opt PStr (User.user_social_media u));
     ("phone_number", py_opt PInt (User.phone_number u))].

Definition with_user_id (k : Z) (u : User.t) : User.t :=
  User.mk k (User.email u) (User.password u) (User.fname u) (User.lname u)
          (User.user_gender u) (User.user_bio u) (User.user_profile_img u)
          (User.user_social_media u) (User.phone_number u).






(** A session reached from the empty database: Jo and a complete Trip
    of hers are added and committed. *)
Definition seeded_session : Session :=
  snd (session_commit plain_integer plain_string plain_boolean plain_date
         plain_integer
         (snd (session_add (mkInstance MTrip (Trip_kwargs trip_sf_la))
                 (snd (session_add (mkInstance MUser (User_kwargs jo))
                         empty_session))))).

(** A Trip without a time, and a User whose first name is too long. *)
Definition trip_without_time : dict :=
  dict_literal [("origin", PStr "San Francisco");
                ("destination", PStr "Los Angeles")].


(** * Properties *)

(** ** Running the serialisers *)

Ltac run_json :=
  unfold User_to_json, Trip_to_json, UserTrip_to_json, UserTrip_trip_user,
    Trip_user, UserTrip_trip, UserTrip_user, bind, get_session, ret;
  cbn beta iota.

(** Replace a relationship by the row it was found to load. *)
Ltac load_rel :=
  match goal with
  | H : ?lookup = _ |- context [?lookup] =>
      rewrite H; cbn [getattr ret raise]; cbn beta iota
  end.

Ltac run_json_loaded := run_json; repeat load_rel.

(** The keys of a dictionary display are the keys of its items, and a
    property of all items is a property of the dictionary. *)
Lemma dom_fold_insert (items : list (string * pyval)) (d : dict) :
  dom (fold_left (fun d kv => <[kv.1 := kv.2]> d) items d)
  = list_to_set items.*1 ∪ dom d.
Proof.
  revert d. induction items as [| [k v] items IH]; intros d; cbn.
  - now rewrite union_empty_l_L.
  - rewrite IH, dom_insert_L. apply set_eq. intros x.
    rewrite !elem_of_union. tauto.
Qed.

Lemma dom_dict_literal (items : list (string * pyval)) :
  dom (dict_literal items) = list_to_set items.*1.
Proof.
  unfold dict_literal. now rewrite dom_fold_insert, dom_empty_L, union_empty_r_L.
Qed.

Lemma map_Forall_fold_insert (P : string -> pyval -> Prop)
      (items : list (string * pyval)) (d : dict) :
  Forall (fun kv => P kv.1 kv.2) items ->
  map_Forall P d ->
  map_Forall P (fold_left (fun d kv => <[kv.1 := kv.2]> d) items d).
Proof.
  revert d. induction items as [| [k v] items IH]; intros d Hitems Hd; cbn.
  - exact Hd.
  - inversion Hitems; subst. apply IH; [assumption |].
    apply map_Forall_insert_2; assumption.
Qed.

Lemma map_Forall_dict_literal (P : string -> pyval -> Prop)
      (items : list (string * pyval)) :
  Forall (fun kv => P kv.1 kv.2) items -> map_Forall P (dict_literal items).
Proof.
  intros H. apply map_Forall_fold_insert; [exact H | apply map_Forall_empty].
Qed.

(** Looking a key up in a dictionary display: the last item with that
    key. *)
Definition items_get (k : string) (items : list (string * pyval)) : option pyval :=
  fold_left (fun found kv => if String.eqb kv.1 k then Some kv.2 else found)
            items None.

Lemma lookup_fold_insert (k : string) (items : list (string * pyval)) (d : dict) :
  fold_left (fun d kv => <[kv.1 := kv.2]> d) items d !! k
  = fold_left (fun found kv => if String.eqb kv.1 k then Some kv.2 else found)
              items (d !! k).
Proof.
  revert d. induction items as [| [k' v] items IH]; intros d; cbn.
  - reflexivity.
  - rewrite IH. f_equal. destruct (String.eqb_spec k' k) as [-> | Hne].
    + apply lookup_insert_eq.
    + now apply lookup_insert_ne.
Qed.

Lemma lookup_dict_literal (k : string) (items : list (string * pyval)) :
  dict_literal items !! k = items_get k items.
Proof. unfold dict_literal, items_get. now rewrite lookup_fold_insert. Qed.

Ltac dict_lookup := rewrite lookup_dict_literal; reflexivity.

Lemma py_opt_str_scalar (o : option string) : is_scalar (py_opt PStr o) = true.
Proof. destruct o; reflexivity. Qed.

Ltac dict_keys := rewrite dom_dict_literal; reflexivity.

Ltac dict_forall :=
  apply map_Forall_dict_literal;
  repeat (constructor; [first [apply py_opt_str_scalar | reflexivity] |]);
  constructor.

Lemma Trip_to_json_loaded (s : Session) (t : Trip.t) (u : User.t) :
  users (store s) !! Trip.user_id t = Some u ->
  exists m, Trip_to_json t s = (Return m, s) /\
    dom m = list_to_set Trip_keys /\
    map_Forall (fun _ v => is_scalar v = true) m /\
    map_Forall (fun k _ => is_camelCase k = true) m.
Proof.
  intros Hu. run_json_loaded. eexists. split; [reflexivity |].
  split; [dict_keys |]. split; dict_forall.
Qed.


Lemma UserTrip_to_json_loaded (s : Session) (ut : UserTrip.t)
      (t : Trip.t) (passenger driver : User.t) :
  trips (store s) !! UserTrip.trip_id ut = Some t ->
  users (store s) !! UserTrip.user_id ut = Some passenger ->
  users (store s) !! Trip.user_id t = Some driver ->
  exists m, UserTrip_to_json ut s = (Return m, s) /\
    dom m = list_to_set UserTrip_keys /\
    map_Forall (fun _ v => is_scalar v = true) m /\
    map_Forall (fun k _ => is_camelCase k = true) m.
Proof.
  intros Ht Hp Hd. run_json_loaded. eexists. split; [reflexivity |].
  split; [dict_keys |]. split; dict_forall.
Qed.


(** ** Dates as text *)

Example strftime_2018_11_13 : strftime_Y_m_d (mkDate 2018 11 13) = "2018-11-13".
Proof. reflexivity. Qed.

Example strftime_pads_with_zeros : strftime_Y_m_d (mkDate 987 6 5) = "0987-06-05".
Proof. reflexivity. Qed.







(** ** The serialised mappings *)

(** C1. The driver of a Trip is flattened into the serialised Trip: for
    every Trip whose User exists, Trip.to_json returns a mapping that
    holds the driver's first name under 'userFirstName' and the driver's
    profile image under 'userProfileImg', next to the Trip's own
    'origin', 'destination', 'maxPassengers' and 'numPassengers'; every
    value of the mapping is a scalar, none a nested object. *)
Theorem Trip_to_json_flattens_driver (s : Session) (t : Trip.t) (u : User.t) :
  users (store s) !! Trip.user_id t = Some u ->
  exists m,
    fst (Trip_to_json t s) = Return m /\
    m !! "userFirstName" = Some (py_opt PStr (User.fname u)) /\
    m !! "userProfileImg" = Some (py_opt PStr (User.user_profile_img u)) /\
    m !! "origin" = Some (PStr (Trip.origin t)) /\
    m !! "destination" = Some (PStr (Trip.destination t)) /\
    m !! "maxPassengers" = Some (PInt (Trip.max_passengers t)) /\
    m !! "numPassengers" = Some (PInt (Trip.num_passengers t)) /\
    map_Forall (fun _ v => is_scalar v = true) m.
Proof.
  intros Hu. run_json_loaded. eexists. split; [reflexivity |].
  repeat (split; [dict_lookup |]). dict_forall.
Qed.

(** The scenario: Jo's trip from San Francisco to Los Angeles. *)
Lemma Trip_to_json_flattens_driver_Jo :
  exists m,
    fst (Trip_to_json trip_sf_la sample_session) = Return m /\
    m !! "userFirstName" = Some (PStr "Jo") /\
    m !! "userProfileImg" =
      Some (PStr "https://robohash.org/enimsolutaqui.png?size=50x50&set=set1") /\
    m !! "origin" = Some (PStr "San Francisco") /\
    m !! "destination" = Some (PStr "Los Angeles") /\
    m !! "maxPassengers" = Some (PInt 3) /\
    m !! "numPassengers" = Some (PInt 1) /\
    map_Forall (fun _ v => is_scalar v = true) m.
Proof.
  apply (Trip_to_json_flattens_driver sample_session trip_sf_la jo).
  reflexivity.
Defined.

(** C2. User.to_json includes the stored password hash: the mapping it
    returns has, under 'password', the value of the User's password
    column. *)
Theorem User_to_json_includes_password (s : Session) (u : User.t) :
  exists m,
    fst (User_to_json u s) = Return m /\
    m !! "password" = Some (py_opt PStr (User.password u)).
Proof. run_json. eexists. split; [reflexivity | dict_lookup]. Qed.







(** C5. For every UserTrip whose passenger, Trip and driver exist,
    UserTrip.to_json returns a mapping with the passenger's first name
    and profile image under 'userFirstName' and 'userProfileImg', and the
    first name and profile image of the User owning the Trip under
    'driverFirstName' and 'driverProfileImg'. *)
Theorem UserTrip_to_json_passenger_and_driver
        (s : Session) (ut : UserTrip.t) (t : Trip.t) (passenger driver : User.t) :
  trips (store s) !! UserTrip.trip_id ut = Some t ->
  users (store s) !! UserTrip.user_id ut = Some passenger ->
  users (store s) !! Trip.user_id t = Some driver ->
  exists m,
    fst (UserTrip_to_json ut s) = Return m /\
    m !! "userFirstName" = Some (py_opt PStr (User.fname passenger)) /\
    m !! "userProfileImg" = Some (py_opt PStr (User.user_profile_img passenger)) /\
    m !! "driverFirstName" = Some (py_opt PStr (User.fname driver)) /\
    m !! "driverProfileImg" = Some (py_opt PStr (User.user_profile_img driver)).
Proof.
  intros Ht Hp Hd. run_json_loaded. eexists. split; [reflexivity |].
  repeat split; dict_lookup.
Qed.

(** Al rides with Jo. *)
Lemma UserTrip_to_json_Al_rides_with_Jo :
  exists m,
    fst (UserTrip_to_json al_joins sample_session) = Return m /\
    m !! "userFirstName" = Some (PStr "Al") /\
    m !! "userProfileImg" = Some (PStr "https://robohash.org/al.png") /\
    m !! "driverFirstName" = Some (PStr "Jo") /\
    m !! "driverProfileImg" =
      Some (PStr "https://robohash.org/enimsolutaqui.png?size=50x50&set=set1").
Proof.
  apply (UserTrip_to_json_passenger_and_driver
           sample_session al_joins trip_sf_la al jo); reflexivity.
Defined.

(** C9. The mapping Trip.to_json returns has no entry for the active
    flag: its keys are the fourteen keys of the dictionary display, there
    is nothing under 'isActive' or 'is_active', and the mapping is the
    same whatever the is_active column holds. *)
Theorem Trip_to_json_omits_is_active (s : Session) (t : Trip.t) (u : User.t) :
  users (store s) !! Trip.user_id t = Some u ->
  exists m,
    fst (Trip_to_json t s) = Return m /\
    dom m = list_to_set Trip_keys /\
    m !! "isActive" = None /\
    m !! "is_active" = None /\
    forall b, fst (Trip_to_json (with_is_active b t) s) = Return m.
Proof.
  intros Hu. run_json_loaded. eexists. split; [reflexivity |].
  split; [dict_keys |]. split; [dict_lookup |]. split; [dict_lookup |].
  intros b. cbn [with_is_active Trip.user_id]. now repeat load_rel.
Qed.

Lemma Trip_to_json_omits_is_active_sf_la :
  exists m,
    fst (Trip_to_json trip_sf_la sample_session) = Return m /\
    dom m = list_to_set Trip_keys /\
    m !! "isActive" = None /\
    m !! "is_active" = None /\
    forall b, fst (Trip_to_json (with_is_active b trip_sf_la) sample_session)
              = Return m.
Proof.
  apply (Trip_to_json_omits_is_active sample_session trip_sf_la jo).
  reflexivity.
Defined.

(** C10. The mapping User.to_json returns has no entry for the phone
    number: its keys are the nine keys of the dictionary display, there
    is nothing under 'phone_number' or 'phoneNumber', and the mapping is
    the same whatever the phone_number column holds; the password is
    there. *)
Theorem User_to_json_omits_phone_number (s : Session) (u : User.t) :
  exists m,
    fst (User_to_json u s) = Return m /\
    dom m = list_to_set User_keys /\
    m !! "phone_number" = None /\
    m !! "phoneNumber" = None /\
    (forall p, fst (User_to_json (with_phone_number p u) s) = Return m) /\
    m !! "password" = Some (py_opt PStr (User.password u)).
Proof.
  run_json. eexists. split; [reflexivity |].
  split; [dict_keys |]. split; [dict_lookup |]. split; [dict_lookup |].
  split; [reflexivity | dict_lookup].
Qed.

(** ** Serialisation only reads *)

(** Decide what a relationship loads. *)
Ltac case_rel :=
  match goal with
  | |- context [getattr ?o _] =>
      destruct o eqn:?; cbn [getattr ret raise]; cbn beta iota
  | |- context [match ?o with Some _ => _ | None => raise _ end] =>
      destruct o eqn:?; cbn [getattr ret raise]; cbn beta iota
  end.

Lemma User_to_json_session (s : Session) (u : User.t) :
  snd (User_to_json u s) = s.
Proof. reflexivity. Qed.

Lemma Trip_to_json_session (s : Session) (t : Trip.t) :
  snd (Trip_to_json t s) = s.
Proof. run_json. repeat case_rel; reflexivity. Qed.

Lemma UserTrip_to_json_session (s : Session) (ut : UserTrip.t) :
  snd (UserTrip_to_json ut s) = s.
Proof. run_json. repeat case_rel; reflexivity. Qed.

Ltac project_rows :=
  cbn [User.user_id User.email User.password User.fname User.lname
       User.user_gender User.user_bio User.user_profile_img
       User.user_social_media User.phone_number
       Trip.trip_id Trip.is_active Trip.date_of_trip Trip.time
       Trip.max_passengers Trip.num_passengers Trip.willing_to_stop
       Trip.trip_cost Trip.user_id Trip.origin Trip.destination
       Trip.distance_meters Trip.display_distance
       UserTrip.user_trip_id UserTrip.trip_id UserTrip.user_id] in *.

Lemma User_to_json_reads (s s' : Session) (u u' : User.t) :
  User_read u = User_read u' ->
  fst (User_to_json u s) = fst (User_to_json u' s').
Proof.
  destruct u, u'. unfold User_read. project_rows.
  intros [= -> -> -> -> -> -> -> -> ->]. reflexivity.
Qed.

Lemma Trip_to_json_reads (s s' : Session) (t t' : Trip.t) :
  Trip_read t = Trip_read t' ->
  Trip_read_of_user <$> users (store s) !! Trip.user_id t
  = Trip_read_of_user <$> users (store s') !! Trip.user_id t' ->
  fst (Trip_to_json t s) = fst (Trip_to_json t' s').
Proof.
  destruct t, t'. unfold Trip_read. project_rows.
  intros [= -> -> -> -> -> -> -> -> -> -> -> ->] Hu.
  run_json. project_rows.
  destruct (users (store s) !! _) as [u |] eqn:Eu,
           (users (store s') !! _) as [u' |] eqn:Eu';
    try discriminate Hu; cbn [getattr ret raise]; cbn beta iota;
    [| reflexivity].
  repeat load_rel. injection Hu as Hf Hi. now rewrite Hf, Hi.
Qed.

Lemma UserTrip_to_json_reads (s s' : Session) (ut ut' : UserTrip.t) :
  UserTrip_read ut = UserTrip_read ut' ->
  UserTrip_read_of_trip <$> trip_of s ut
  = UserTrip_read_of_trip <$> trip_of s' ut' ->
  UserTrip_read_of_user <$> passenger_of s ut
  = UserTrip_read_of_user <$> passenger_of s' ut' ->
  UserTrip_read_of_user <$> driver_of s ut
  = UserTrip_read_of_user <$> driver_of s' ut' ->
  fst (UserTrip_to_json ut s) = fst (UserTrip_to_json ut' s').
Proof.
  destruct ut, ut'. unfold UserTrip_read, driver_of, trip_of, passenger_of.
  project_rows. intros [= -> -> ->] Ht Hp Hd.
  run_json. project_rows.
  destruct (trips (store s) !! _) as [t |] eqn:Et,
           (trips (store s') !! _) as [t' |] eqn:Et';
    try discriminate Ht; cbn [getattr ret raise]; cbn beta iota;
    [| reflexivity].
  destruct (users (store s) !! user_id0) as [p |] eqn:Ep,
           (users (store s') !! user_id0) as [p' |] eqn:Ep';
    try discriminate Hp; cbn [getattr ret raise]; cbn beta iota;
    [| reflexivity].
  repeat load_rel.
  destruct (users (store s) !! Trip.user_id t) as [d |] eqn:Ed,
           (users (store s') !! Trip.user_id t') as [d' |] eqn:Ed';
    try discriminate Hd; cbn [getattr ret raise]; cbn beta iota;
    [| reflexivity].
  repeat load_rel.
  unfold UserTrip_read_of_trip, UserTrip_read_of_user in *.
  injection Ht as -> -> -> -> -> -> ->.
  injection Hp as -> -> ->.
  injection Hd as -> -> ->.
  reflexivity.
Qed.

(** C8. Serialisation has no side effects: whether to_json returns or
    raises, the session it leaves, with every row of every table, is the
    session it started from; and what it returns is determined by the
    columns it reads, of the entity and of the rows its relationships
    load. *)
Theorem to_json_no_side_effects :
  (forall s u, snd (User_to_json u s) = s) /\
  (forall s t, snd (Trip_to_json t s) = s) /\
  (forall s ut, snd (UserTrip_to_json ut s) = s) /\
  (forall s s' u u',
      User_read u = User_read u' ->
      fst (User_to_json u s) = fst (User_to_json u' s')) /\
  (forall s s' t t',
      Trip_read t = Trip_read t' ->
      Trip_read_of_user <$> users (store s) !! Trip.user_id t
      = Trip_read_of_user <$> users (store s') !! Trip.user_id t' ->
      fst (Trip_to_json t s) = fst (Trip_to_json t' s')) /\
  (forall s s' ut ut',
      UserTrip_read ut = UserTrip_read ut' ->
      UserTrip_read_of_trip <$> trip_of s ut
      = UserTrip_read_of_trip <$> trip_of s' ut' ->
      UserTrip_read_of_user <$> passenger_of s ut
      = UserTrip_read_of_user <$> passenger_of s' ut' ->
      UserTrip_read_of_user <$> driver_of s ut
      = UserTrip_read_of_user <$> driver_of s' ut' ->
      fst (UserTrip_to_json ut s) = fst (UserTrip_to_json ut' s')).
Proof.
  split; [exact User_to_json_session |].
  split; [exact Trip_to_json_session |].
  split; [exact UserTrip_to_json_session |].
  split; [exact User_to_json_reads |].
  split; [exact Trip_to_json_reads | exact UserTrip_to_json_reads].
Qed.

(** The serialisers run on the sample rows. *)
Lemma to_json_no_side_effects_sample :
  snd (User_to_json jo sample_session) = sample_session /\
  snd (Trip_to_json trip_sf_la sample_session) = sample_session /\
  snd (UserTrip_to_json al_joins sample_session) = sample_session /\
  fst (User_to_json jo sample_session)
  = fst (User_to_json (with_phone_number (Some 5105550199) jo) empty_session) /\
  fst (Trip_to_json trip_sf_la sample_session)
  = fst (Trip_to_json (with_is_active None trip_sf_la) sample_session) /\
  fst (UserTrip_to_json al_joins sample_session)
  = fst (UserTrip_to_json al_joins
           (mkSession sample_store [mkInstance MUser ∅])).
Proof.
  destruct to_json_no_side_effects as (HU & HT & HUT & HUr & HTr & HUTr).
  split; [apply HU |]. split; [apply HT |]. split; [apply HUT |].
  split; [apply HUr; reflexivity |].
  split; [apply HTr; reflexivity | apply HUTr; reflexivity].
Defined.

(** ** The session *)

Lemma rows_kept_refl (s : Session) : rows_kept s s.
Proof. repeat split; reflexivity. Qed.

Lemma rows_kept_trans (s1 s2 s3 : Session) :
  rows_kept s1 s2 -> rows_kept s2 s3 -> rows_kept s1 s3.
Proof.
  intros (Hu & Ht & Hut) (Hu' & Ht' & Hut').
  repeat split; etrans; eassumption.
Qed.

Lemma raises_bind_l {A B} (c : M A) (k : A -> M B) :
  raises c -> raises (bind c k).
Proof.
  intros Hc s. destruct (Hc s) as (e & s' & Hs).
  exists e, s'. unfold bind. now rewrite Hs.
Qed.

Lemma raises_bind_r {A B} (c : M A) (k : A -> M B) :
  (forall a, raises (k a)) -> raises (bind c k).
Proof.
  intros Hk s. unfold bind. destruct (c s) as [[a | e] s'].
  - apply Hk.
  - now exists e, s'.
Qed.

Lemma raises_bind_return {A B} (a : A) (k : A -> M B) :
  raises (k a) -> raises (bind (lift (Return a)) k).
Proof. intros Hk s. apply Hk. Qed.

Lemma raises_not_null_None {A} : raises (lift (@not_null A None)).
Proof. intros s. now exists IntegrityError, s. Qed.

Lemma for_each_raises {A} (f : A -> M unit) (l : list A) (x : A) :
  In x l -> raises (f x) -> raises (for_each f l).
Proof.
  intros Hin Hx. induction l as [| y l IH]; [destruct Hin |].
  cbn [for_each]. destruct Hin as [-> | Hin].
  - now apply raises_bind_l.
  - apply raises_bind_r. intros _. now apply IH.
Qed.

Lemma keeps_ret {A} (a : A) : keeps (ret a).
Proof. intros s. apply rows_kept_refl. Qed.

Lemma keeps_lift {A} (o : outcome A) : keeps (lift o).
Proof. intros s. apply rows_kept_refl. Qed.

Lemma keeps_bind {A B} (c : M A) (k : A -> M B) :
  keeps c -> (forall a, keeps (k a)) -> keeps (bind c k).
Proof.
  intros Hc Hk s. specialize (Hc s). unfold bind.
  destruct (c s) as [[a | e] s']; cbn [snd] in *.
  - eapply rows_kept_trans; [exact Hc | apply Hk].
  - exact Hc.
Qed.

Lemma keeps_nextval_users : keeps nextval_users.
Proof. intros s. repeat split; reflexivity. Qed.

Lemma keeps_nextval_trips : keeps nextval_trips.
Proof. intros s. repeat split; reflexivity. Qed.

Lemma keeps_nextval_user_trips : keeps nextval_user_trips.
Proof. intros s. repeat split; reflexivity. Qed.

Lemma keeps_primary_key (given : option Z) (nextval : M Z) :
  keeps nextval -> keeps (primary_key given nextval).
Proof. intros H. destruct given; [apply keeps_ret | exact H]. Qed.

Lemma keeps_references {A} (table : Store -> gmap Z A) (k : Z) :
  keeps (references table k).
Proof.
  intros s. unfold references.
  destruct (table (store s) !! k); apply rows_kept_refl.
Qed.

Lemma keeps_add_user_row (u : User.t) : keeps (add_user_row u).
Proof.
  intros s. unfold add_user_row.
  destruct (users (store s) !! User.user_id u) eqn:E; [apply rows_kept_refl |].
  repeat split; cbn; try reflexivity. now apply insert_subseteq.
Qed.

Lemma keeps_add_trip_row (t : Trip.t) : keeps (add_trip_row t).
Proof.
  intros s. unfold add_trip_row.
  destruct (trips (store s) !! Trip.trip_id t) eqn:E; [apply rows_kept_refl |].
  repeat split; cbn; try reflexivity. now apply insert_subseteq.
Qed.

Lemma keeps_add_user_trip_row (ut : UserTrip.t) : keeps (add_user_trip_row ut).
Proof.
  intros s. unfold add_user_trip_row.
  destruct (user_trips (store s) !! UserTrip.user_trip_id ut) eqn:E;
    [apply rows_kept_refl |].
  repeat split; cbn; try reflexivity. now apply insert_subseteq.
Qed.

Lemma keeps_for_each {A} (f : A -> M unit) (l : list A) :
  (forall x, keeps (f x)) -> keeps (for_each f l).
Proof.
  intros Hf. induction l as [| x l IH]; cbn [for_each].
  - apply keeps_ret.
  - apply keeps_bind; [apply Hf | intros _; exact IH].
Qed.

Lemma keeps_session_add (o : instance) : keeps (session_add o).
Proof. intros s. repeat split; reflexivity. Qed.

Create HintDb keeps.
#[local] Hint Resolve keeps_ret keeps_lift keeps_nextval_users keeps_nextval_trips
  keeps_nextval_user_trips keeps_primary_key keeps_references
  keeps_add_user_row keeps_add_trip_row keeps_add_user_trip_row
  keeps_session_add : keeps.

Ltac keeps_steps :=
  repeat (apply keeps_bind; [auto with keeps | intros ?]); auto with keeps.

Section DatabaseProperties.

Variable adapt_integer : pyval -> option Z.
Variable adapt_string : pyval -> option string.
Variable adapt_boolean : pyval -> option bool.
Variable adapt_date : pyval -> option date.
Variable adapt_numeric : pyval -> option Z.
Variable hashpw : string -> string -> string.

Local Abbreviation insert_user' := (insert_user adapt_integer adapt_string adapt_numeric).
Local Abbreviation insert_trip' :=
  (insert_trip adapt_integer adapt_string adapt_boolean adapt_date).
Local Abbreviation insert_user_trip' := (insert_user_trip adapt_integer).
Local Abbreviation insert' :=
  (insert adapt_integer adapt_string adapt_boolean adapt_date adapt_numeric).
Local Abbreviation session_flush' :=
  (session_flush adapt_integer adapt_string adapt_boolean adapt_date
                 adapt_numeric).
Local Abbreviation session_commit' :=
  (session_commit adapt_integer adapt_string adapt_boolean adapt_date
                  adapt_numeric).
Local Abbreviation example_data' :=
  (example_data adapt_integer adapt_string adapt_boolean adapt_date
                adapt_numeric hashpw).
Local Abbreviation enroll' :=
  (enroll adapt_integer adapt_string adapt_boolean adapt_date adapt_numeric).

(** *** Inserts keep the rows that are there *)

Lemma keeps_insert (o : instance) : keeps (insert' o).
Proof.
  unfold insert. destruct (cls o).
  - unfold insert_user. keeps_steps.
  - unfold insert_trip. keeps_steps.
  - unfold insert_user_trip. keeps_steps.
Qed.

Lemma keeps_session_flush : keeps session_flush'.
Proof.
  intros s. unfold session_flush, bind, get_session, put_session.
  cbn beta iota.
  match goal with
  | |- context [for_each ?f ?l s] =>
      pose proof (keeps_for_each f l keeps_insert s) as H;
      destruct (for_each f l s) as [[[] | e] s']
  end; exact H.
Qed.

(** A commit keeps the rows that are there, whether the flush goes
    through or is rolled back. *)
Lemma keeps_session_commit : keeps session_commit'.
Proof.
  intros s. unfold session_commit, try_except, bind, get_session.
  cbn beta iota. pose proof (keeps_session_flush s) as H.
  destruct (session_flush' s) as [[[] | e] s']; [exact H |].
  repeat split; reflexivity.
Qed.

(** When the flush raises, the commit raises and the tables are what
    they were. *)
Lemma session_commit_rolls_back (s : Session) :
  (exists e s', session_flush' s = (Raise e, s')) ->
  exists e s',
    session_commit' s = (Raise e, s') /\
    users (store s') = users (store s) /\
    trips (store s') = trips (store s) /\
    user_trips (store s') = user_trips (store s) /\
    new s' = [].
Proof.
  intros (e & s' & Hflush).
  unfold session_commit, try_except, bind, get_session. cbn beta iota.
  rewrite Hflush. eexists _, _. split; [reflexivity |].
  repeat split; reflexivity.
Qed.

(** *** A Trip without a time *)

(** [time] is declared nullable=False and has no default: the INSERT
    of a Trip whose [time] was not set raises. *)
Lemma insert_trip_without_time (kw : dict) :
  attr kw "time" = PNone -> raises (insert_trip' kw).
Proof.
  intros Htime. unfold insert_trip. rewrite Htime.
  do 3 (apply raises_bind_r; intros ?).
  apply raises_bind_return.
  do 11 (apply raises_bind_r; intros ?).
  apply raises_bind_l, raises_not_null_None.
Qed.

Lemma session_flush_raises (s : Session) (o : instance) :
  In o (new s) -> raises (insert' o) ->
  exists e s', session_flush' s = (Raise e, s').
Proof.
  intros Hin Ho. unfold session_flush, bind, get_session. cbn beta iota.
  match goal with
  | |- context [for_each ?f ?l s] =>
      destruct (for_each_raises f l o) with (s := s) as (e & s' & ->)
  end; [| exact Ho | now exists e, s'].
  rewrite !in_app_iff, !filter_In.
  unfold is_instance. destruct (cls o); auto.
Qed.

(** example_data builds its Trip without a [time], a column declared
    nullable=False: on every session the commit raises and the
    transaction is rolled back. *)
Lemma example_data_rolls_back (salt : string) (s : Session) :
  exists e s',
    example_data' salt s = (Raise e, s') /\
    users (store s') = users (store s) /\
    trips (store s') = trips (store s) /\
    user_trips (store s') = user_trips (store s) /\
    new s' = [].
Proof.
  unfold example_data, session_add, bind, get_session, put_session.
  cbn beta iota zeta. cbn [store new].
  match goal with
  | |- context [session_commit' ?s1] =>
      destruct (session_commit_rolls_back s1)
        as (e & s' & -> & Hu & Ht & Hut & Hnew)
  end.
  - match goal with
    | |- context [mkSession _ ((_ ++ _) ++ [?trip])] =>
        apply session_flush_raises with (o := trip)
    end.
    + cbn [new]. apply in_app_iff. right. now left.
    + unfold insert. cbn [cls kwargs].
      apply insert_trip_without_time.
      unfold attr. now rewrite lookup_dict_literal.
  - exists e, s'. cbn [store] in *. auto.
Qed.

(** C6, where the code departs from it. Seeding twice does not produce
    two User rows and two Trip rows: each invocation of example_data
    raises at its commit, which is rolled back, and after the two
    invocations the users and trips tables hold the rows they held
    before. *)
Theorem example_data_twice_persists_nothing
        (salt1 salt2 : string) (s : Session) :
  exists e1 s1 e2 s2,
    example_data' salt1 s = (Raise e1, s1) /\
    example_data' salt2 s1 = (Raise e2, s2) /\
    users (store s2) = users (store s) /\
    trips (store s2) = trips (store s).
Proof.
  destruct (example_data_rolls_back salt1 s)
    as (e1 & s1 & H1 & Hu1 & Ht1 & _).
  destruct (example_data_rolls_back salt2 s1)
    as (e2 & s2 & H2 & Hu2 & Ht2 & _).
  exists e1, s1, e2, s2.
  split; [exact H1 |]. split; [exact H2 |].
  rewrite Hu2, Hu1, Ht2, Ht1. split; reflexivity.
Qed.

(** C7. Enrolling a passenger does not touch the Trip: every row of
    the trips table is, after a UserTrip was created and committed,
    the row it was before, with the same num_passengers. *)
Theorem enroll_keeps_num_passengers
        (trip_id user_id : pyval) (s : Session) (k : Z) (t : Trip.t) :
  trips (store s) !! k = Some t ->
  trips (store (snd (enroll' trip_id user_id s))) !! k = Some t /\
  Trip.num_passengers <$> trips (store (snd (enroll' trip_id user_id s))) !! k
  = Some (Trip.num_passengers t).
Proof.
  intros Hk.
  assert (Hkeeps : keeps (enroll' trip_id user_id)).
  { unfold enroll. apply keeps_bind; [apply keeps_session_add |].
    intros _. apply keeps_session_commit. }
  destruct (Hkeeps s) as (_ & Htrips & _).
  pose proof (lookup_weaken _ _ _ _ Hk Htrips) as Hk'.
  split; [exact Hk' | now rewrite Hk'].
Qed.

End DatabaseProperties.

(** Bo becomes the second passenger of Jo's trip: the UserTrip is stored
    and the trip still counts one passenger. *)
Lemma enroll_keeps_num_passengers_Bo :
  fst (enroll plain_integer plain_string plain_boolean plain_date plain_integer
              (PInt 1) (PInt 3) sample_session) = Return tt /\
  user_trips
    (store (snd (enroll plain_integer plain_string plain_boolean plain_date
                        plain_integer (PInt 1) (PInt 3) sample_session))) !! 2
  = Some (UserTrip.mk 2 1 3) /\
  trips
    (store (snd (enroll plain_integer plain_string plain_boolean plain_date
                        plain_integer (PInt 1) (PInt 3) sample_session))) !! 1
  = Some trip_sf_la /\
  Trip.num_passengers <$>
    trips
      (store (snd (enroll plain_integer plain_string plain_boolean plain_date
                          plain_integer (PInt 1) (PInt 3) sample_session))) !! 1
  = Some 1.
Proof.
  split; [vm_compute; reflexivity |]. split; [vm_compute; reflexivity |].
  apply (enroll_keeps_num_passengers
           plain_integer plain_string plain_boolean plain_date plain_integer
           (PInt 1) (PInt 3) sample_session 1 trip_sf_la).
  reflexivity.
Defined.

(** The seeder on the empty database: it raises and the tables stay
    empty. *)
Example example_data_on_empty_database :
  exists e s',
    example_data plain_integer plain_string plain_boolean plain_date
                 plain_integer (fun pw salt => salt +:+ pw) "$2b$12$aaaa"
                 empty_session = (Raise e, s') /\
    users (store s') = ∅ /\ trips (store s') = ∅.
Proof.
  destruct (example_data_rolls_back
              plain_integer plain_string plain_boolean plain_date plain_integer
              (fun pw salt => salt +:+ pw) "$2b$12$aaaa" empty_session)
    as (e & s' & H & Hu & Ht & _).
  exists e, s'. auto.
Qed.

(** The same two calls with a complete Trip go through: the rows get the
    next identifiers and num_passengers its default. *)
Example commit_of_complete_instances :
  let user := mkInstance MUser (dict_literal [("fname", PStr "Jo")]) in
  let trip :=
    mkInstance MTrip
      (dict_literal
         [("date_of_trip", PDate (mkDate 2018 11 13));
          ("time", PStr "10:00");
          ("max_passengers", PInt 3);
          ("willing_to_stop", PBool false);
          ("trip_cost", PInt 10);
          ("user_id", PInt 1);
          ("origin", PStr "San Francisco");
          ("destination", PStr "Los Angeles");
          ("distance_meters", PInt 15422);
          ("display_distance", PStr "13 mi")]) in
  let run :=
    (session_add user ;;;
     session_add trip ;;;
     session_commit plain_integer plain_string plain_boolean plain_date
                    plain_integer)%py in
  fst (run empty_session) = Return tt /\
  users (store (snd (run empty_session))) !! 1
  = Some (User.mk 1 None None (Some "Jo") None None None None None None) /\
  trips (store (snd (run empty_session))) !! 1
  = Some (Trip.mk 1 None (mkDate 2018 11 13) "10:00" 3 0 false 10 1
                  "San Francisco" "Los Angeles" 15422 "13 mi").
Proof. repeat split; vm_compute; reflexivity. Qed.


(** * Further properties of the serialisers *)

(** ** When a serialiser raises *)






(** ** What a serialised UserTrip holds *)

(** X3. The mapping UserTrip.to_json returns has exactly the sixteen
    keys of its dictionary display: of the Trip it carries neither
    'maxPassengers', 'tripCost', 'willingToStop' nor the driver's
    identifier 'userAsDriver'. *)
Theorem UserTrip_to_json_keys
        (s : Session) (ut : UserTrip.t) (t : Trip.t) (passenger driver : User.t) :
  trips (store s) !! UserTrip.trip_id ut = Some t ->
  users (store s) !! UserTrip.user_id ut = Some passenger ->
  users (store s) !! Trip.user_id t = Some driver ->
  exists m,
    fst (UserTrip_to_json ut s) = Return m /\
    dom m = list_to_set UserTrip_keys /\
    m !! "maxPassengers" = None /\
    m !! "tripCost" = None /\
    m !! "willingToStop" = None /\
    m !! "userAsDriver" = None.
Proof.
  intros Ht Hp Hd. run_json_loaded. eexists. split; [reflexivity |].
  split; [dict_keys |]. repeat split; dict_lookup.
Qed.

Lemma UserTrip_to_json_keys_al_joins :
  exists m,
    fst (UserTrip_to_json al_joins sample_session) = Return m /\
    dom m = list_to_set UserTrip_keys /\
    m !! "maxPassengers" = None /\
    m !! "tripCost" = None /\
    m !! "willingToStop" = None /\
    m !! "userAsDriver" = None.
Proof.
  apply (UserTrip_to_json_keys sample_session al_joins trip_sf_la al jo);
    reflexivity.
Defined.

(** X4. A serialised UserTrip agrees with the serialised Trip it refers
    to: the entries 'dateOfTrip', 'origin', 'time', 'destination',
    'displayDistance', 'distanceMeters' and 'numPassengers' are the
    same in both, and the driver, who is under 'userFirstName' and
    'userProfileImg' in the Trip, is under 'driverFirstName' and
    'driverProfileImg' in the UserTrip, where 'userFirstName' and
    'userProfileImg' are the passenger's. *)
Theorem UserTrip_to_json_agrees_with_Trip_to_json
        (s : Session) (ut : UserTrip.t) (t : Trip.t) (passenger driver : User.t) :
  trips (store s) !! UserTrip.trip_id ut = Some t ->
  users (store s) !! UserTrip.user_id ut = Some passenger ->
  users (store s) !! Trip.user_id t = Some driver ->
  exists mut mt,
    fst (UserTrip_to_json ut s) = Return mut /\
    fst (Trip_to_json t s) = Return mt /\
    Forall (fun k => is_Some (mt !! k) /\ mut !! k = mt !! k)
           UserTrip_keys_of_trip /\
    mut !! "driverFirstName" = mt !! "userFirstName" /\
    mut !! "driverProfileImg" = mt !! "userProfileImg" /\
    mut !! "userFirstName" = Some (py_opt PStr (User.fname passenger)) /\
    mut !! "userProfileImg" = Some (py_opt PStr (User.user_profile_img passenger)).
Proof.
  intros Ht Hp Hd. run_json_loaded. eexists _, _.
  split; [reflexivity |]. split; [reflexivity |].
  split.
  - repeat (constructor;
            [split; [eexists; dict_lookup | now rewrite !lookup_dict_literal] |]).
    constructor.
  - repeat split; first [now rewrite !lookup_dict_literal | dict_lookup].
Qed.

Lemma UserTrip_to_json_agrees_with_Trip_to_json_al_joins :
  exists mut mt,
    fst (UserTrip_to_json al_joins sample_session) = Return mut /\
    fst (Trip_to_json trip_sf_la sample_session) = Return mt /\
    Forall (fun k => is_Some (mt !! k) /\ mut !! k = mt !! k)
           UserTrip_keys_of_trip /\
    mut !! "driverFirstName" = mt !! "userFirstName" /\
    mut !! "driverProfileImg" = mt !! "userProfileImg" /\
    mut !! "userFirstName" = Some (PStr "Al") /\
    mut !! "userProfileImg" = Some (PStr "https://robohash.org/al.png").
Proof.
  apply (UserTrip_to_json_agrees_with_Trip_to_json
           sample_session al_joins trip_sf_la al jo); reflexivity.
Defined.

(** X5. What the serialised Trip and UserTrip say of a User is what the
    serialised User says: the driver's entries are the 'fname',
    'userProfileImg' and 'userBio' entries of User.to_json of the driver,
    the passenger's those of User.to_json of the passenger. *)
Theorem to_json_of_related_User
        (s : Session) (ut : UserTrip.t) (t : Trip.t) (passenger driver : User.t) :
  trips (store s) !! UserTrip.trip_id ut = Some t ->
  users (store s) !! UserTrip.user_id ut = Some passenger ->
  users (store s) !! Trip.user_id t = Some driver ->
  exists mut mt mp md,
    fst (UserTrip_to_json ut s) = Return mut /\
    fst (Trip_to_json t s) = Return mt /\
    fst (User_to_json passenger s) = Return mp /\
    fst (User_to_json driver s) = Return md /\
    mt !! "userFirstName" = md !! "fname" /\
    mt !! "userProfileImg" = md !! "userProfileImg" /\
    mt !! "userAsDriver" = Some (PInt (Trip.user_id t)) /\
    mut !! "userFirstName" = mp !! "fname" /\
    mut !! "userProfileImg" = mp !! "userProfileImg" /\
    mut !! "userBio" = mp !! "userBio" /\
    mut !! "driverFirstName" = md !! "fname" /\
    mut !! "driverProfileImg" = md !! "userProfileImg" /\
    mut !! "driverBio" = md !! "userBio".
Proof.
  intros Ht Hp Hd. run_json_loaded. eexists _, _, _, _.
  do 4 (split; [reflexivity |]).
  repeat split; first [now rewrite !lookup_dict_literal | dict_lookup].
Qed.

Lemma to_json_of_related_User_al_joins :
  exists mut mt mp md,
    fst (UserTrip_to_json al_joins sample_session) = Return mut /\
    fst (Trip_to_json trip_sf_la sample_session) = Return mt /\
    fst (User_to_json al sample_session) = Return mp /\
    fst (User_to_json jo sample_session) = Return md /\
    mt !! "userFirstName" = md !! "fname" /\
    mt !! "userProfileImg" = md !! "userProfileImg" /\
    mt !! "userAsDriver" = Some (PInt 1) /\
    mut !! "userFirstName" = mp !! "fname" /\
    mut !! "userProfileImg" = mp !! "userProfileImg" /\
    mut !! "userBio" = mp !! "userBio" /\
    mut !! "driverFirstName" = md !! "fname" /\
    mut !! "driverProfileImg" = md !! "userProfileImg" /\
    mut !! "driverBio" = md !! "userBio".
Proof.
  apply (to_json_of_related_User sample_session al_joins trip_sf_la al jo);
    reflexivity.
Defined.


(** * Further properties of the date text *)







(** * Further properties of the session *)

(** ** The keys of the database *)

Lemma consistent_same_tables (st st' : Store) :
  users st' = users st -> trips st' = trips st ->
  user_trips st' = user_trips st ->
  consistent st -> consistent st'.
Proof.
  unfold consistent, primary_keys_hold, foreign_keys_hold.
  now intros -> -> ->.
Qed.

Lemma consistent_empty_store : consistent empty_store.
Proof.
  split; [split; [| split] | split]; apply map_Forall_empty.
Qed.

Lemma stays_consistent_ret {A} (a : A) : stays_consistent (ret a).
Proof. now intros s b s' Hc [= _ <-]. Qed.

Lemma stays_consistent_lift {A} (o : outcome A) : stays_consistent (lift o).
Proof. now intros s b s' Hc [= _ <-]. Qed.

Lemma stays_consistent_bind {A B} (c : M A) (k : A -> M B) :
  stays_consistent c -> (forall a, stays_consistent (k a)) ->
  stays_consistent (bind c k).
Proof.
  intros Hc Hk s b s2 Hs. unfold bind.
  destruct (c s) as [[a | e] s1] eqn:E; [| discriminate].
  intros Hrun. eapply Hk; [| exact Hrun]. eapply Hc; eassumption.
Qed.

Lemma stays_consistent_nextval_users : stays_consistent nextval_users.
Proof.
  intros s a s' Hc [= _ <-]. revert Hc. now apply consistent_same_tables.
Qed.

Lemma stays_consistent_nextval_trips : stays_consistent nextval_trips.
Proof.
  intros s a s' Hc [= _ <-]. revert Hc. now apply consistent_same_tables.
Qed.

Lemma stays_consistent_nextval_user_trips : stays_consistent nextval_user_trips.
Proof.
  intros s a s' Hc [= _ <-]. revert Hc. now apply consistent_same_tables.
Qed.

Lemma stays_consistent_primary_key (given : option Z) (nextval : M Z) :
  stays_consistent nextval -> stays_consistent (primary_key given nextval).
Proof. intros H. destruct given; [apply stays_consistent_ret | exact H]. Qed.

Lemma stays_consistent_session_add (o : instance) :
  stays_consistent (session_add o).
Proof. now intros s a s' Hc [= _ <-]. Qed.

Lemma is_Some_lookup_insert {A} (m : gmap Z A) (i j : Z) (x : A) :
  is_Some (m !! j) -> is_Some (<[i := x]> m !! j).
Proof.
  intros H. destruct (decide (i = j)) as [-> | Hne].
  - rewrite lookup_insert_eq. eauto.
  - now rewrite lookup_insert_ne.
Qed.

(** A new User row keeps the keys. *)
Lemma stays_consistent_add_user_row (u : User.t) :
  stays_consistent (add_user_row u).
Proof.
  intros s a s' ((Pu & Pt & Put) & (Ft & Fut)). unfold add_user_row.
  destruct (users (store s) !! User.user_id u) eqn:E; [discriminate |].
  intros [= _ <-].
  unfold consistent, primary_keys_hold, foreign_keys_hold.
  cbn [store users trips user_trips].
  split; [split; [| split] | split]; try assumption.
  - now apply map_Forall_insert_2.
  - intros k t Hk. apply is_Some_lookup_insert. exact (Ft k t Hk).
  - intros k ut Hk. destruct (Fut k ut Hk) as (Ht & Hu).
    split; [exact Ht | now apply is_Some_lookup_insert].
Qed.

(** A new Trip row whose User is then found keeps the keys. *)
Lemma stays_consistent_add_trip_row (t : Trip.t) (user_id : Z) :
  Trip.user_id t = user_id ->
  stays_consistent (add_trip_row t ;;; references users user_id).
Proof.
  intros <- s a s' ((Pu & Pt & Put) & (Ft & Fut)).
  unfold bind, add_trip_row, references.
  destruct (trips (store s) !! Trip.trip_id t) eqn:E; [discriminate |].
  cbn [store users trips user_trips].
  destruct (users (store s) !! Trip.user_id t) eqn:Eu; cbn beta iota;
    [| discriminate].
  intros [= _ <-].
  unfold consistent, primary_keys_hold, foreign_keys_hold.
  cbn [store users trips user_trips].
  split; [split; [| split] | split]; try assumption.
  - now apply map_Forall_insert_2.
  - apply map_Forall_insert_2; [cbv beta; rewrite Eu; eauto | assumption].
  - intros k ut Hk. destruct (Fut k ut Hk) as (Ht & Hu).
    split; [now apply is_Some_lookup_insert | exact Hu].
Qed.

(** A new UserTrip row whose Trip and User are then found keeps the
    keys. *)
Lemma stays_consistent_add_user_trip_row (ut : UserTrip.t) (trip_id user_id : Z) :
  UserTrip.trip_id ut = trip_id -> UserTrip.user_id ut = user_id ->
  stays_consistent (add_user_trip_row ut ;;;
                    references trips trip_id ;;;
                    references users user_id).
Proof.
  intros <- <- s a s' ((Pu & Pt & Put) & (Ft & Fut)).
  unfold bind, add_user_trip_row, references.
  destruct (user_trips (store s) !! UserTrip.user_trip_id ut) eqn:E;
    [discriminate |].
  cbn [store users trips user_trips].
  destruct (trips (store s) !! UserTrip.trip_id ut) eqn:Et;
    cbn [store users trips user_trips]; [| discriminate].
  destruct (users (store s) !! UserTrip.user_id ut) eqn:Eu; cbn beta iota;
    [| discriminate].
  intros [= _ <-].
  unfold consistent, primary_keys_hold, foreign_keys_hold.
  cbn [store users trips user_trips].
  split; [split; [| split] | split]; try assumption.
  - now apply map_Forall_insert_2.
  - apply map_Forall_insert_2; [| assumption].
    cbv beta. rewrite Et, Eu. eauto.
Qed.

Lemma stays_consistent_for_each {A} (f : A -> M unit) (l : list A) :
  (forall x, stays_consistent (f x)) -> stays_consistent (for_each f l).
Proof.
  intros Hf. induction l as [| x l IH]; cbn [for_each].
  - apply stays_consistent_ret.
  - apply stays_consistent_bind; [apply Hf | intros _; exact IH].
Qed.

Create HintDb consistent.
#[local] Hint Resolve stays_consistent_ret stays_consistent_lift
  stays_consistent_nextval_users stays_consistent_nextval_trips
  stays_consistent_nextval_user_trips stays_consistent_primary_key
  stays_consistent_session_add : consistent.

Ltac consistent_steps :=
  repeat (apply stays_consistent_bind; [solve [auto with consistent] | intros ?]).

Section DatabaseInvariants.

Variable adapt_integer : pyval -> option Z.
Variable adapt_string : pyval -> option string.
Variable adapt_boolean : pyval -> option bool.
Variable adapt_date : pyval -> option date.
Variable adapt_numeric : pyval -> option Z.

Local Abbreviation insert' :=
  (insert adapt_integer adapt_string adapt_boolean adapt_date adapt_numeric).
Local Abbreviation session_flush' :=
  (session_flush adapt_integer adapt_string adapt_boolean adapt_date
                 adapt_numeric).
Local Abbreviation session_commit' :=
  (session_commit adapt_integer adapt_string adapt_boolean adapt_date
                  adapt_numeric).
Local Abbreviation reachable' :=
  (reachable adapt_integer adapt_string adapt_boolean adapt_date adapt_numeric).

Lemma stays_consistent_insert (o : instance) : stays_consistent (insert' o).
Proof.
  unfold insert. destruct (cls o).
  - unfold insert_user. consistent_steps. apply stays_consistent_add_user_row.
  - unfold insert_trip. consistent_steps.
    now apply stays_consistent_add_trip_row.
  - unfold insert_user_trip. consistent_steps.
    now apply stays_consistent_add_user_trip_row.
Qed.

Lemma stays_consistent_session_flush : stays_consistent session_flush'.
Proof.
  intros s a s' Hc. unfold session_flush, bind, get_session, put_session.
  cbn beta iota.
  match goal with
  | |- context [for_each ?f ?l s] =>
      pose proof (stays_consistent_for_each f l stays_consistent_insert s) as H;
      destruct (for_each f l s) as [[[] | e] s1]; [| discriminate]
  end.
  intros [= _ <-]. cbn [store]. now apply (H tt s1).
Qed.

(** A commit leaves a consistent database consistent: rows are stored
    under their primary keys and the foreign keys of the trips and
    user_trips tables refer to rows that exist, whether the commit goes
    through or is rolled back. *)
Lemma session_commit_consistent (s : Session) :
  consistent (store s) -> consistent (store (snd (session_commit' s))).
Proof.
  intros Hc. unfold session_commit, try_except, bind, get_session.
  cbn beta iota.
  pose proof (stays_consistent_session_flush s) as H.
  destruct (session_flush' s) as [[[] | e] s1]; cbn [snd].
  - now apply (H tt s1).
  - revert Hc. now apply consistent_same_tables.
Qed.

Lemma reachable_consistent (s : Session) :
  reachable' s -> consistent (store s).
Proof.
  induction 1 as [| s o _ IH | s _ IH].
  - apply consistent_empty_store.
  - exact IH.
  - now apply session_commit_consistent.
Qed.

(** X7. The keys of the database are an invariant of the session: in
    every session reached from the empty database by db.session.add and
    db.session.commit, whatever was added and whether the commits went
    through or were rolled back, each row is stored under its own
    primary key, every Trip refers to a User that exists and every
    UserTrip to a Trip and a User that exist. *)
Theorem reachable_sessions_are_consistent (s : Session) :
  reachable' s ->
  primary_keys_hold (store s) /\ foreign_keys_hold (store s).
Proof. intros H. exact (reachable_consistent s H). Qed.

(** X8. Every Trip and every UserTrip the database holds can be
    serialised: in a session reached from the empty database, to_json of
    a stored Trip and of a stored UserTrip return a mapping, they do not
    raise. *)
Theorem stored_rows_serialise (s : Session) :
  reachable' s ->
  (forall k t, trips (store s) !! k = Some t ->
               exists m, fst (Trip_to_json t s) = Return m) /\
  (forall k ut, user_trips (store s) !! k = Some ut ->
                exists m, fst (UserTrip_to_json ut s) = Return m).
Proof.
  intros H. destruct (reachable_consistent s H) as (_ & Ft & Fut). split.
  - intros k t Hk. destruct (Ft k t Hk) as (u & Hu).
    destruct (Trip_to_json_loaded s t u Hu) as (m & Hm & _).
    exists m. now rewrite Hm.
  - intros k ut Hk. destruct (Fut k ut Hk) as ((t & Ht) & (p & Hp)).
    destruct (Ft _ t Ht) as (d & Hd).
    destruct (UserTrip_to_json_loaded s ut t p d Ht Hp Hd) as (m & Hm & _).
    exists m. now rewrite Hm.
Qed.

(** ** A commit is all or nothing *)






















Lemma session_commit_unfold (s : Session) :
  session_commit' s =
  match session_flush' s with
  | (Return a, s') => (Return a, s')
  | (Raise e, s') =>
      (Raise e, mkSession (restore_tables (store s) (store s')) [])
  end.
Proof.
  unfold session_commit, try_except, bind, get_session. cbn beta iota.
  destruct (session_flush' s) as [[[] | e] s1]; reflexivity.
Qed.


(** ** Columns that must be given *)

Lemma insert_trip_without_required (kw : dict) (c : string) :
  In c Trip_required_columns -> attr kw c = PNone ->
  raises (insert_trip adapt_integer adapt_string adapt_boolean adapt_date kw).
Proof.
  intros Hin Hc. unfold insert_trip, bind_varchar.
  repeat (destruct Hin as [<- | Hin]; [rewrite Hc;
    repeat first [ apply raises_bind_l, raises_not_null_None
                 | apply raises_bind_return
                 | apply raises_bind_r; intros ? ] |]).
  destruct Hin.
Qed.

(** X10. The columns of Trip declared nullable=False without a default
    have to be given: when a new Trip in the session has no value for
    one of date_of_trip, time, max_passengers, willing_to_stop,
    trip_cost, user_id, origin, destination, distance_meters or
    display_distance, the commit raises and the three tables are what
    they were, whatever else was added. *)
Theorem Trip_required_columns_enforced (s : Session) (kw : dict) (c : string) :
  In c Trip_required_columns ->
  attr kw c = PNone ->
  In (mkInstance MTrip kw) (new s) ->
  exists e s',
    session_commit' s = (Raise e, s') /\
    users (store s') = users (store s) /\
    trips (store s') = trips (store s) /\
    user_trips (store s') = user_trips (store s).
Proof.
  intros Hc Hnone Hnew.
  destruct (session_commit_rolls_back
              adapt_integer adapt_string adapt_boolean adapt_date adapt_numeric s)
    as (e & s' & Hcommit & Hu & Ht & Hut & _).
  - apply session_flush_raises with (o := mkInstance MTrip kw); [exact Hnew |].
    unfold insert. cbn [cls kwargs].
    now apply insert_trip_without_required with (c := c).
  - now exists e, s'.
Qed.

End DatabaseInvariants.

(** ** What a commit stores *)

Section NativeDriver.

Variable adapt_integer : pyval -> option Z.
Variable adapt_string : pyval -> option string.
Variable adapt_boolean : pyval -> option bool.
Variable adapt_date : pyval -> option date.
Variable adapt_numeric : pyval -> option Z.

Hypothesis Hnative :
  native_driver adapt_integer adapt_string adapt_boolean adapt_date.

Local Abbreviation insert_trip' :=
  (insert_trip adapt_integer adapt_string adapt_boolean adapt_date).
Local Abbreviation insert_user_trip' := (insert_user_trip adapt_integer).
Local Abbreviation session_commit' :=
  (session_commit adapt_integer adapt_string adapt_boolean adapt_date
                  adapt_numeric).
Local Abbreviation enroll' :=
  (enroll adapt_integer adapt_string adapt_boolean adapt_date adapt_numeric).


Lemma session_add_bind {B} (o : instance) (k : M B) (s : Session) :
  (session_add o ;;; k) s = k (mkSession (store s) (new s ++ [o])).
Proof. reflexivity. Qed.

(** Adding one instance to a session with nothing else to flush and
    committing: the outcome is that of its INSERT. *)
Lemma add_commit_single (o : instance) (s s1 : Session) (r : outcome unit) :
  new s = [] ->
  insert adapt_integer adapt_string adapt_boolean adapt_date adapt_numeric o
         (mkSession (store s) [o]) = (r, s1) ->
  (session_add o ;;; session_commit') s
  = match r with
    | Return _ => (Return tt, mkSession (store s1) [])
    | Raise e => (Raise e, mkSession (restore_tables (store s) (store s1)) [])
    end.
Proof.
  intros Hnew Hins.
  unfold session_add, bind at 1, bind at 1, get_session, put_session.
  cbn beta iota. rewrite Hnew. cbn [app].
  rewrite session_commit_unfold.
  unfold session_flush, bind at 1, get_session. cbn beta iota. cbn [new store].
  assert (Hl : (List.filter (is_instance MUser) [o] ++
                List.filter (is_instance MTrip) [o] ++
                List.filter (is_instance MUserTrip) [o])%list = [o]).
  { cbn [List.filter]. unfold is_instance. now destruct (cls o). }
  rewrite Hl. cbn [for_each]. unfold bind at 1, bind at 1. rewrite Hins.
  destruct r as [[] | e]; reflexivity.
Qed.

Lemma attr_dict_literal (items : list (string * pyval)) (name : string) :
  attr (dict_literal items) name = default PNone (items_get name items).
Proof. unfold attr. now rewrite lookup_dict_literal. Qed.




(** The INSERT of the UserTrip that [enroll] constructs. *)
Lemma insert_user_trip_enrolment (trip_id user_id : Z) (s : Session) :
  insert_user_trip'
    (dict_literal [("trip_id", PInt trip_id); ("user_id", PInt user_id)]) s
  = let s1 := mkSession (store (with_new_user_trip trip_id user_id s)) (new s) in
    match user_trips (store s) !! (user_trips_seq (store s) + 1) with
    | Some _ =>
        (Raise IntegrityError,
         mkSession (restore_tables (store s) (store s1)) (new s))
    | None =>
        match trips (store s) !! trip_id, users (store s) !! user_id with
        | Some _, Some _ => (Return tt, s1)
        | _, _ => (Raise IntegrityError, s1)
        end
    end.
Proof.
  destruct Hnative as (Hint & _).
  set (kw := dict_literal [("trip_id", PInt trip_id); ("user_id", PInt user_id)]).
  assert (Hk : attr kw "user_trip_id" = PNone)
    by (unfold kw; rewrite attr_dict_literal; reflexivity).
  assert (Ht : attr kw "trip_id" = PInt trip_id)
    by (unfold kw; rewrite attr_dict_literal; reflexivity).
  assert (Hu : attr kw "user_id" = PInt user_id)
    by (unfold kw; rewrite attr_dict_literal; reflexivity).
  unfold insert_user_trip, bind_param. rewrite Hk, Ht, Hu, !Hint.
  unfold bind, lift, primary_key, nextval_user_trips, not_null,
    add_user_trip_row, references, with_new_user_trip, restore_tables.
  cbn [store users trips user_trips users_seq trips_seq user_trips_seq new
       UserTrip.user_trip_id UserTrip.trip_id UserTrip.user_id].
  destruct (user_trips (store s) !! (user_trips_seq (store s) + 1));
    [reflexivity |].
  cbn [store users trips user_trips users_seq trips_seq user_trips_seq new].
  destruct (trips (store s) !! trip_id); [| reflexivity].
  cbn [store users trips user_trips users_seq trips_seq user_trips_seq new].
  destruct (users (store s) !! user_id); reflexivity.
Qed.

Lemma enroll_returns (trip_id user_id : Z) (t : Trip.t) (u : User.t) (s : Session) :
  new s = [] ->
  trips (store s) !! trip_id = Some t ->
  users (store s) !! user_id = Some u ->
  user_trips (store s) !! (user_trips_seq (store s) + 1) = None ->
  enroll' (PInt trip_id) (PInt user_id) s
  = (Return tt, with_new_user_trip trip_id user_id s).
Proof.
  intros Hnew Ht Hu Hfresh. unfold enroll.
  erewrite add_commit_single; [| exact Hnew |].
  2: { unfold insert. cbn [cls kwargs]. rewrite insert_user_trip_enrolment.
       cbn [store new]. rewrite Hfresh, Ht, Hu. reflexivity. }
  reflexivity.
Qed.



(** X13. Nothing keeps a User from being in the same Trip twice: the
    same UserTrip(trip_id, user_id) added and committed a second time
    is stored again, and the table has two rows, under two different
    identifiers, that refer to the same Trip and the same User. *)
Theorem same_UserTrip_twice_stores_two_rows
        (trip_id user_id : Z) (t : Trip.t) (u : User.t) (s : Session) :
  new s = [] ->
  trips (store s) !! trip_id = Some t ->
  users (store s) !! user_id = Some u ->
  (forall k, user_trips_seq (store s) < k -> user_trips (store s) !! k = None) ->
  exists s',
    (session_add (mkInstance MUserTrip (UserTrip_kwargs trip_id user_id)) ;;;
     session_commit' ;;;
     session_add (mkInstance MUserTrip (UserTrip_kwargs trip_id user_id)) ;;;
     session_commit') s = (Return tt, s') /\
    user_trips (store s') !! (user_trips_seq (store s) + 1)
    = Some (UserTrip.mk (user_trips_seq (store s) + 1) trip_id user_id) /\
    user_trips (store s') !! (user_trips_seq (store s) + 2)
    = Some (UserTrip.mk (user_trips_seq (store s) + 2) trip_id user_id) /\
    size (user_trips (store s')) = (size (user_trips (store s)) + 2)%nat.
Proof.
  intros Hnew Ht Hu Hfresh.
  assert (Hfresh1 : user_trips (store s) !! (user_trips_seq (store s) + 1) = None)
    by (apply Hfresh; lia).
  pose proof (enroll_returns trip_id user_id t u s Hnew Ht Hu Hfresh1) as H1.
  assert (Hfresh2 : user_trips (store s) !! (user_trips_seq (store s) + 2) = None)
    by (apply Hfresh; lia).
  pose proof (enroll_returns trip_id user_id t u
                (with_new_user_trip trip_id user_id s) eq_refl Ht Hu) as H2.
  cbn [with_new_user_trip store users trips user_trips user_trips_seq] in H2.
  rewrite lookup_insert_ne in H2 by lia.
  replace (user_trips_seq (store s) + 1 + 1) with (user_trips_seq (store s) + 2)
    in H2 by lia.
  specialize (H2 Hfresh2).
  change (enroll' (PInt trip_id) (PInt user_id))
    with (session_add (mkInstance MUserTrip (UserTrip_kwargs trip_id user_id)) ;;;
          session_commit') in H1, H2.
  rewrite session_add_bind in H1.
  eexists. split.
  - rewrite session_add_bind. unfold bind at 1. rewrite H1. exact H2.
  - unfold with_new_user_trip.
    cbn [store users trips user_trips user_trips_seq].
    replace (user_trips_seq (store s) + 1 + 1)
      with (user_trips_seq (store s) + 2) by lia.
    split; [| split].
    + rewrite lookup_insert_ne by lia. apply lookup_insert_eq.
    + apply lookup_insert_eq.
    + rewrite !map_size_insert_None; [lia | exact Hfresh1 |].
      rewrite lookup_insert_ne by lia. exact Hfresh2.
Qed.

End NativeDriver.

(** * The back-references *)

Section BackCollection.

Context {A : Type} (fk order_by : A -> Z).

#[local] Instance ordered_by_total : Total (ordered_by order_by).
Proof. intros a b. unfold ordered_by. lia. Qed.

#[local] Instance ordered_by_transitive : Transitive (ordered_by order_by).
Proof. intros a b c. unfold ordered_by. lia. Qed.

Lemma elem_of_rows (table : gmap Z A) (x : A) :
  x ∈ rows table <-> exists k, table !! k = Some x.
Proof.
  unfold rows. rewrite list_elem_of_fmap. split.
  - intros ([k y] & -> & Hin). exists k. now apply elem_of_map_to_list.
  - intros (k & Hk). exists (k, x). split; [reflexivity |].
    now apply elem_of_map_to_list.
Qed.

Lemma elem_of_back_collection (k : Z) (table : gmap Z A) (x : A) :
  x ∈ back_collection fk order_by k table <->
  (exists j, table !! j = Some x) /\ fk x = k.
Proof.
  unfold back_collection.
  rewrite merge_sort_Permutation, list_elem_of_filter, elem_of_rows. tauto.
Qed.


Lemma back_collection_insert (k i : Z) (x : A) (table : gmap Z A) :
  table !! i = None ->
  back_collection fk order_by k (<[i := x]> table)
  ≡ₚ if decide (fk x = k)
     then x :: back_collection fk order_by k table
     else back_collection fk order_by k table.
Proof.
  intros Hi. unfold back_collection, rows.
  rewrite !merge_sort_Permutation, (map_to_list_insert _ _ _ Hi).
  cbn [fmap list_fmap snd]. rewrite filter_cons.
  destruct (decide (fk x = k)); now rewrite ?merge_sort_Permutation.
Qed.

End BackCollection.


Example Trip_user_trips_of_sample :
  fst (Trip_user_trips trip_sf_la sample_session) = Return [al_joins] /\
  fst (User_trips jo sample_session) = Return [trip_sf_la] /\
  fst (User_trips al sample_session) = Return [] /\
  fst (User_user_trips al sample_session) = Return [al_joins].
Proof. repeat split; vm_compute; reflexivity. Qed.

(** X15. The back-references are the inverses of the references. In a
    database whose rows are stored under their primary keys, a stored
    Trip is in User.trips of a stored User exactly when Trip.user loads
    that User, and a stored UserTrip is in Trip.user_trips of a stored
    Trip, and in User.user_trips of a stored User, exactly when
    UserTrip.trip and UserTrip.user load that Trip and that User. *)
Theorem back_references_invert_references (s : Session) :
  primary_keys_hold (store s) ->
  (forall k u j t,
      users (store s) !! k = Some u -> trips (store s) !! j = Some t ->
      exists l, fst (User_trips u s) = Return l /\
                (t ∈ l <-> fst (Trip_user t s) = Return (Some u))) /\
  (forall k t j ut,
      trips (store s) !! k = Some t -> user_trips (store s) !! j = Some ut ->
      exists l, fst (Trip_user_trips t s) = Return l /\
                (ut ∈ l <-> fst (UserTrip_trip ut s) = Return (Some t))) /\
  (forall k u j ut,
      users (store s) !! k = Some u -> user_trips (store s) !! j = Some ut ->
      exists l, fst (User_user_trips u s) = Return l /\
                (ut ∈ l <-> fst (UserTrip_user ut s) = Return (Some u))).
Proof.
  intros (Pu & Pt & Put). split; [| split].
  - intros k u j t Hu Ht. eexists. split; [reflexivity |].
    rewrite elem_of_back_collection.
    unfold Trip_user, bind, get_session, ret. cbn [fst].
    pose proof (Pu k u Hu) as Hk. cbv beta in Hk. subst k. split.
    + intros (_ & ->). now rewrite Hu.
    + intros [= Hload]. split; [eauto |].
      symmetry. exact (Pu _ u Hload).
  - intros k t j ut Ht Hut. eexists. split; [reflexivity |].
    rewrite elem_of_back_collection.
    unfold UserTrip_trip, bind, get_session, ret. cbn [fst].
    pose proof (Pt k t Ht) as Hk. cbv beta in Hk. subst k. split.
    + intros (_ & ->). now rewrite Ht.
    + intros [= Hload]. split; [eauto |].
      symmetry. exact (Pt _ t Hload).
  - intros k u j ut Hu Hut. eexists. split; [reflexivity |].
    rewrite elem_of_back_collection.
    unfold UserTrip_user, bind, get_session, ret. cbn [fst].
    pose proof (Pu k u Hu) as Hk. cbv beta in Hk. subst k. split.
    + intros (_ & ->). now rewrite Hu.
    + intros [= Hload]. split; [eauto |].
      symmetry. exact (Pu _ u Hload).
Qed.

Section Enrolment.

Variable adapt_integer : pyval -> option Z.
Variable adapt_string : pyval -> option string.
Variable adapt_boolean : pyval -> option bool.
Variable adapt_date : pyval -> option date.
Variable adapt_numeric : pyval -> option Z.

Hypothesis Hnative :
  native_driver adapt_integer adapt_string adapt_boolean adapt_date.

Local Abbreviation session_commit' :=
  (session_commit adapt_integer adapt_string adapt_boolean adapt_date
                  adapt_numeric).

(** X16. A new UserTrip shows in the back-references and nowhere else:
    after UserTrip(trip_id, user_id) was added and committed,
    Trip.user_trips of the Trip and User.user_trips of the User each
    have one member more, the new UserTrip, while the Trip row, with its
    num_passengers, is the row it was: the number of UserTrips of a
    Trip and the counter on the Trip go apart. *)
Theorem new_UserTrip_grows_back_references
        (t : Trip.t) (u : User.t) (s : Session) :
  new s = [] ->
  trips (store s) !! Trip.trip_id t = Some t ->
  users (store s) !! User.user_id u = Some u ->
  user_trips (store s) !! (user_trips_seq (store s) + 1) = None ->
  exists s' before after before_u after_u,
    (session_add
       (mkInstance MUserTrip (UserTrip_kwargs (Trip.trip_id t) (User.user_id u))) ;;;
     session_commit') s = (Return tt, s') /\
    fst (Trip_user_trips t s) = Return before /\
    fst (Trip_user_trips t s') = Return after /\
    fst (User_user_trips u s) = Return before_u /\
    fst (User_user_trips u s') = Return after_u /\
    length after = S (length before) /\
    length after_u = S (length before_u) /\
    UserTrip.mk (user_trips_seq (store s) + 1) (Trip.trip_id t) (User.user_id u)
      ∈ after /\
    UserTrip.mk (user_trips_seq (store s) + 1) (Trip.trip_id t) (User.user_id u)
      ∈ after_u /\
    trips (store s') !! Trip.trip_id t = Some t.
Proof.
  intros Hnew Ht Hu Hfresh.
  pose proof (enroll_returns adapt_integer adapt_string adapt_boolean adapt_date
                adapt_numeric Hnative _ _ t u s Hnew Ht Hu Hfresh) as Hrun.
  eexists _, _, _, _, _. split; [exact Hrun |].
  do 4 (split; [reflexivity |]).
  unfold with_new_user_trip.
  cbn [store users trips user_trips user_trips_seq].
  pose proof (back_collection_insert
                UserTrip.trip_id UserTrip.user_trip_id (Trip.trip_id t) _
                (UserTrip.mk (user_trips_seq (store s) + 1) (Trip.trip_id t)
                             (User.user_id u)) _ Hfresh) as Pt.
  pose proof (back_collection_insert
                UserTrip.user_id UserTrip.user_trip_id (User.user_id u) _
                (UserTrip.mk (user_trips_seq (store s) + 1) (Trip.trip_id t)
                             (User.user_id u)) _ Hfresh) as Pu.
  cbn [UserTrip.trip_id UserTrip.user_id] in Pt, Pu.
  rewrite decide_True in Pt by reflexivity.
  rewrite decide_True in Pu by reflexivity.
  split; [now rewrite Pt |]. split; [now rewrite Pu |].
  split; [rewrite Pt; now left |]. split; [rewrite Pu; now left |].
  exact Ht.
Qed.

End Enrolment.

(** * Users *)

Section Users.

Variable adapt_integer : pyval -> option Z.
Variable adapt_string : pyval -> option string.
Variable adapt_boolean : pyval -> option bool.
Variable adapt_date : pyval -> option date.
Variable adapt_numeric : pyval -> option Z.

Hypothesis Hnative :
  native_driver adapt_integer adapt_string adapt_boolean adapt_date.
Hypothesis Hnumeric : forall z, adapt_numeric (PInt z) = Some z.

Local Abbreviation insert_user' :=
  (insert_user adapt_integer adapt_string adapt_numeric).
Local Abbreviation session_commit' :=
  (session_commit adapt_integer adapt_string adapt_boolean adapt_date
                  adapt_numeric).







(** ** Texts that are too long *)




End Users.

(** * The properties on the sample database *)

Lemma plain_driver_native :
  native_driver plain_integer plain_string plain_boolean plain_date.
Proof. repeat split. Qed.

Lemma sample_store_primary_keys : primary_keys_hold sample_store.
Proof.
  split; [| split]; cbn [sample_store users trips user_trips];
    repeat (apply map_Forall_insert_2; [reflexivity |]);
    apply map_Forall_empty.
Qed.

Lemma seeded_session_reachable :
  reachable plain_integer plain_string plain_boolean plain_date plain_integer
            seeded_session.
Proof. apply reachable_commit, reachable_add, reachable_add, reachable_empty. Qed.

Example seeded_session_rows :
  users (store seeded_session) !! 1 = Some (with_user_id 1 jo) /\
  trips (store seeded_session) !! 1 = Some trip_sf_la.
Proof. split; vm_compute; reflexivity. Qed.

Lemma reachable_sessions_are_consistent_seeded :
  primary_keys_hold (store seeded_session) /\
  foreign_keys_hold (store seeded_session).
Proof.
  apply (reachable_sessions_are_consistent
           plain_integer plain_string plain_boolean plain_date plain_integer).
  exact seeded_session_reachable.
Defined.

Lemma stored_rows_serialise_seeded :
  (forall k t, trips (store seeded_session) !! k = Some t ->
               exists m, fst (Trip_to_json t seeded_session) = Return m) /\
  (forall k ut, user_trips (store seeded_session) !! k = Some ut ->
                exists m, fst (UserTrip_to_json ut seeded_session) = Return m).
Proof.
  apply (stored_rows_serialise
           plain_integer plain_string plain_boolean plain_date plain_integer).
  exact seeded_session_reachable.
Defined.

Lemma Trip_required_columns_enforced_time :
  exists e s',
    session_commit plain_integer plain_string plain_boolean plain_date
                   plain_integer
                   (mkSession sample_store [mkInstance MTrip trip_without_time])
    = (Raise e, s') /\
    users (store s') = users sample_store /\
    trips (store s') = trips sample_store /\
    user_trips (store s') = user_trips sample_store.
Proof.
  apply (Trip_required_columns_enforced
           plain_integer plain_string plain_boolean plain_date plain_integer
           (mkSession sample_store [mkInstance MTrip trip_without_time])
           trip_without_time "time").
  - right. left. reflexivity.
  - vm_compute. reflexivity.
  - left. reflexivity.
Defined.



Lemma sample_user_trips_fresh (k : Z) :
  user_trips_seq (store sample_session) < k ->
  user_trips (store sample_session) !! k = None.
Proof.
  cbn [sample_session sample_store store user_trips user_trips_seq]. intros Hk.
  rewrite lookup_insert_ne by lia. apply lookup_empty.
Qed.


Lemma same_UserTrip_twice_stores_two_rows_Bo :
  exists s',
    (session_add (mkInstance MUserTrip (UserTrip_kwargs 1 3)) ;;;
     session_commit plain_integer plain_string plain_boolean plain_date
                    plain_integer ;;;
     session_add (mkInstance MUserTrip (UserTrip_kwargs 1 3)) ;;;
     session_commit plain_integer plain_string plain_boolean plain_date
                    plain_integer) sample_session = (Return tt, s') /\
    user_trips (store s') !! (user_trips_seq (store sample_session) + 1)
    = Some (UserTrip.mk (user_trips_seq (store sample_session) + 1) 1 3) /\
    user_trips (store s') !! (user_trips_seq (store sample_session) + 2)
    = Some (UserTrip.mk (user_trips_seq (store sample_session) + 2) 1 3) /\
    size (user_trips (store s'))
    = (size (user_trips (store sample_session)) + 2)%nat.
Proof.
  apply (same_UserTrip_twice_stores_two_rows
           plain_integer plain_string plain_boolean plain_date plain_integer
           plain_driver_native 1 3 trip_sf_la bo sample_session);
    first [reflexivity | exact sample_user_trips_fresh].
Defined.

Lemma back_references_invert_references_sample :
  (forall k u j t,
      users (store sample_session) !! k = Some u ->
      trips (store sample_session) !! j = Some t ->
      exists l, fst (User_trips u sample_session) = Return l /\
                (t ∈ l <-> fst (Trip_user t sample_session) = Return (Some u))) /\
  (forall k t j ut,
      trips (store sample_session) !! k = Some t ->
      user_trips (store sample_session) !! j = Some ut ->
      exists l, fst (Trip_user_trips t sample_session) = Return l /\
                (ut ∈ l <->
                 fst (UserTrip_trip ut sample_session) = Return (Some t))) /\
  (forall k u j ut,
      users (store sample_session) !! k = Some u ->
      user_trips (store sample_session) !! j = Some ut ->
      exists l, fst (User_user_trips u sample_session) = Return l /\
                (ut ∈ l <->
                 fst (UserTrip_user ut sample_session) = Return (Some u))).
Proof.
  apply (back_references_invert_references sample_session).
  exact sample_store_primary_keys.
Defined.

Lemma new_UserTrip_grows_back_references_Bo :
  exists s' before after before_u after_u,
    (session_add
       (mkInstance MUserTrip
          (UserTrip_kwargs (Trip.trip_id trip_sf_la) (User.user_id bo))) ;;;
     session_commit plain_integer plain_string plain_boolean plain_date
                    plain_integer) sample_session = (Return tt, s') /\
    fst (Trip_user_trips trip_sf_la sample_session) = Return before /\
    fst (Trip_user_trips trip_sf_la s') = Return after /\
    fst (User_user_trips bo sample_session) = Return before_u /\
    fst (User_user_trips bo s') = Return after_u /\
    length after = S (length before) /\
    length after_u = S (length before_u) /\
    UserTrip.mk (user_trips_seq (store sample_session) + 1)
                (Trip.trip_id trip_sf_la) (User.user_id bo) ∈ after /\
    UserTrip.mk (user_trips_seq (store sample_session) + 1)
                (Trip.trip_id trip_sf_la) (User.user_id bo) ∈ after_u /\
    trips (store s') !! Trip.trip_id trip_sf_la = Some trip_sf_la.
Proof.
  apply (new_UserTrip_grows_back_references
           plain_integer plain_string plain_boolean plain_date plain_integer
           plain_driver_native trip_sf_la bo sample_session); reflexivity.
Defined.


